(** * Quote builder back end: a shallow embedding and its specification

    The development follows the Express back end of the quote builder:
    the route modules [routes/settings.js], [routes/customers.js],
    [routes/products.js], [routes/quotes.js], [routes/auth.js],
    [routes/ai.js] and the authentication middleware.

    Conventions of the embedding:
    - request bodies are JSON, so dynamic values are the type [JS.value];
      JSON numbers are exact rationals ([Q]);
    - the relational store is a record of tables, each table a list of rows;
      a handler is a function from the store (and the request) to the new
      store and the response; [NOW()] timestamps are left out;
    - what the code draws from outside (random bytes, fresh uuids, the
      PBKDF2 primitive, token verification, the language-model call) is an
      explicit argument or a [Variable] of a section;
    - a query is taken to succeed: of the ways the database can refuse a
      statement only the constraints written out at a definition (a foreign
      key on delete, NOT NULL on update) are modelled, and a JSONB document
      is read back as it was written. *)

From Stdlib Require Import ZArith QArith Qround Qminmax List String Ascii Bool Lia.
From Stdlib Require Import Strings.Byte.
Import ListNotations.

Set Warnings "-register-all".

Close Scope Q_scope.
Local Open Scope string_scope.
Local Open Scope list_scope.

(* ================================================================== *)
(** ** JavaScript values as they come out of [JSON.parse] *)

Module JS.

Inductive value : Type :=
| VUndefined
| VNull
| VBool (b : bool)
| VNum (q : Q)
| VStr (s : string)
| VArr (xs : list value)
| VObj (fields : list (string * value)).

(** [!!v]: [undefined], [null], [false], [0] and the empty string are falsy. *)
Definition truthy (v : value) : bool :=
  match v with
  | VUndefined | VNull => false
  | VBool b => b
  | VNum q => negb (Qeq_bool q 0)
  | VStr s => negb (String.eqb s "")
  | VArr _ | VObj _ => true
  end.

Definition typeof (v : value) : string :=
  match v with
  | VUndefined => "undefined"
  | VNull => "object"
  | VBool _ => "boolean"
  | VNum _ => "number"
  | VStr _ => "string"
  | VArr _ | VObj _ => "object"
  end.

Definition isArray (v : value) : bool :=
  match v with VArr _ => true | _ => false end.

Fixpoint assoc (k : string) (fs : list (string * value)) : value :=
  match fs with
  | [] => VUndefined
  | (k', v) :: fs' => if String.eqb k k' then v else assoc k fs'
  end.

(** [o.k] for a field name [k] that is no built-in property: the own field
    of an object, [undefined] on every other non-nullish value. *)
Definition prop (o : value) (k : string) : value :=
  match o with
  | VObj fs => assoc k fs
  | _ => VUndefined
  end.

(** [a || b] *)
Definition or_else (a b : value) : value := if truthy a then a else b.

(** [typeof v !== 'number' || v < 0] *)
Definition not_nonneg_number (v : value) : bool :=
  match v with
  | VNum q => negb (Qle_bool 0 q)
  | _ => true
  end.

End JS.
Import JS.

(* ================================================================== *)
(** ** Strings: [startsWith], [split] on a one-character separator, hex *)

Module Str.

Definition startsWith (s p : string) : bool := String.prefix p s.

(** [s.split(sep)] for a separator of length one. *)
Fixpoint split (sep : ascii) (s : string) : list string :=
  match s with
  | EmptyString => [EmptyString]
  | String c s' =>
      if Ascii.eqb c sep then EmptyString :: split sep s'
      else match split sep s' with
           | [] => [String c EmptyString]
           | h :: t => String c h :: t
           end
  end.

Fixpoint has_char (c : ascii) (s : string) : bool :=
  match s with
  | EmptyString => false
  | String c' s' => Ascii.eqb c' c || has_char c s'
  end.

Definition hex_digit (n : N) : ascii :=
  match n with
  | 0%N => "0" | 1%N => "1" | 2%N => "2" | 3%N => "3"
  | 4%N => "4" | 5%N => "5" | 6%N => "6" | 7%N => "7"
  | 8%N => "8" | 9%N => "9" | 10%N => "a" | 11%N => "b"
  | 12%N => "c" | 13%N => "d" | 14%N => "e" | _ => "f"
  end%char.

Definition hex_of_byte (b : byte) : string :=
  let n := Byte.to_N b in
  String (hex_digit (n / 16)) (String (hex_digit (n mod 16)) EmptyString).

(** [Buffer.toString('hex')] *)
Fixpoint to_hex (bs : list byte) : string :=
  match bs with
  | [] => EmptyString
  | b :: bs' => hex_of_byte b ++ to_hex bs'
  end.

End Str.

(* ================================================================== *)
(** ** Password hashing ([routes/auth.js], also in the single-file server) *)

Section Password.

(** [crypto.pbkdf2Sync(password, salt, iterations, keylen, digest)] *)
Variable pbkdf2Sync : string -> string -> N -> N -> string -> list byte.

(** [rnd] stands for the buffer returned by [crypto.randomBytes(16)]. *)
Definition hashPassword (rnd : list byte) (password : string) : string :=
  let salt := Str.to_hex rnd in
  let hash := Str.to_hex (pbkdf2Sync password salt 1000 64 "sha512") in
  salt ++ ":" ++ hash.

(** [const [salt, hash] = storedHash.split(':')]; a missing second part is
    [undefined], which [===] no string. *)
Definition verifyPassword (password storedHash : string) : bool :=
  let parts := Str.split ":" storedHash in
  match nth_error parts 0 with
  | None => false
  | Some salt =>
      let verifyHash :=
        Str.to_hex (pbkdf2Sync password salt 1000 64 "sha512") in
      match nth_error parts 1 with
      | Some hash => String.eqb hash verifyHash
      | None => false
      end
  end.

End Password.

(* ================================================================== *)
(** ** The relational store ([db/schema.sql]) *)

Module Store.

(** Row types list the columns the route handlers write.  Identifiers are
    uuids, kept as strings; every other column keeps the JSON value the
    handler passed to the query. *)

Record settings_row := {
  s_org : string;
  s_settings : value
}.

Record product_row := {
  p_id : string;
  p_org : string;
  p_name : value;
  p_unit_type : value;
  p_cases_per_pallet : value;
  p_cost_per_case : value;
  p_weight : value;
  p_farm : value;
  p_location : value;
  p_category : value;
  p_bipoc : value;
  p_gap_certified : value;
  p_available : value
}.

Record customer_row := {
  c_id : string;
  c_org : string;
  c_name : value;
  c_type : value;
  c_region_id : value;
  c_address : value;
  c_contact_email : value;
  c_contact_phone : value;
  c_notes : value
}.

(** [status] is one of 'draft', 'sent', 'accepted', 'rejected', 'expired'
    (comment of the [quotes] table); the column itself is free text. *)
Record quote_row := {
  q_id : string;
  q_org : string;
  q_customer_id : value;
  q_distance : value;
  q_notes : value;
  q_status : string;
  q_created_by : string
}.

Record item_row := {
  qi_quote_id : string;
  qi_product_id : value;
  qi_cases : value;
  qi_margin_percent : value;
  qi_unit_cost : value;
  qi_freight_cost : value;
  qi_line_total : value
}.

Record store := {
  pricing_settings : list settings_row;
  products : list product_row;
  customers : list customer_row;
  quotes : list quote_row;
  quote_items : list item_row
}.

Definition with_pricing_settings (db : store) (t : list settings_row) : store :=
  {| pricing_settings := t; products := products db;
     customers := customers db; quotes := quotes db;
     quote_items := quote_items db |}.

Definition with_products (db : store) (t : list product_row) : store :=
  {| pricing_settings := pricing_settings db; products := t;
     customers := customers db; quotes := quotes db;
     quote_items := quote_items db |}.

Definition with_customers (db : store) (t : list customer_row) : store :=
  {| pricing_settings := pricing_settings db; products := products db;
     customers := t; quotes := quotes db;
     quote_items := quote_items db |}.

Definition with_quotes (db : store) (t : list quote_row) : store :=
  {| pricing_settings := pricing_settings db; products := products db;
     customers := customers db; quotes := t;
     quote_items := quote_items db |}.

Definition with_quote_items (db : store) (t : list item_row) : store :=
  {| pricing_settings := pricing_settings db; products := products db;
     customers := customers db; quotes := quotes db;
     quote_items := t |}.

End Store.
Import Store.

(* ================================================================== *)
(** ** Responses and the authentication middleware ([middleware/auth]) *)

(** The payload of [jwt.sign] in [generateToken]. *)
Record claims := {
  userId : string;
  email : string;
  organizationId : string;
  role : string
}.

(** The JSON bodies the handlers send. *)
Inductive payload : Type :=
| PError (msg : string)
| PSuccess
| PSettings (settings : value)
| PSuccessSettings (settings : value)
| PRegions (regions : value)
| PVolumeTiers (tiers : value)
| PCustomers (rows : list customer_row)
| PCustomer (row : customer_row)
| PProduct (row : product_row)
| PQuoteRow (row : quote_row)
| PQuote (row : quote_row) (items : list item_row)
| PText (text : string).

Record response := {
  status : nat;
  body : payload
}.

Definition json (code : nat) (p : payload) : response :=
  {| status := code; body := p |}.

Record request := {
  authorization : option string;
  user : option claims
}.

Definition set_user (req : request) (u : option claims) : request :=
  {| authorization := authorization req; user := u |}.

(** A middleware either answers or hands the request on with [next()]. *)
Inductive step : Type :=
| Respond (r : response)
| Next (req : request).

Section Auth.

(** [jwt.verify(token, JWT_SECRET)]: the decoded payload, or [None] where
    the library throws (wrong signature, expired, malformed). *)
Variable jwt_verify : string -> option claims.

(** [jwt.verify(authHeader.split(' ')[1], JWT_SECRET)] inside [try]. *)
Definition verify_header (h : string) : option claims :=
  match nth_error (Str.split " " h) 1 with
  | Some token => jwt_verify token
  | None => None
  end.

Definition requireAuth (req : request) : step :=
  match authorization req with
  | None => Respond (json 401 (PError "Authentication required"))
  | Some h =>
      if negb (Str.startsWith h "Bearer ") then
        Respond (json 401 (PError "Authentication required"))
      else
        match verify_header h with
        | Some u => Next (set_user req (Some u))
        | None => Respond (json 401 (PError "Invalid token"))
        end
  end.

Definition optionalAuth (req : request) : step :=
  match authorization req with
  | Some h =>
      if Str.startsWith h "Bearer " then
        match verify_header h with
        | Some u => Next (set_user req (Some u))
        | None => Next (set_user req None)
        end
      else Next (set_user req None)
  | None => Next (set_user req None)
  end.

(** A route [router.post(path, mw, handler)]. *)
Definition route (mw : request -> step) (handler : request -> response)
    (req : request) : response :=
  match mw req with
  | Respond r => r
  | Next req' => handler req'
  end.

(** The caller presents no usable bearer token: no header, a header without
    the [Bearer ] prefix, or a token that [jwt.verify] rejects. *)
Definition no_valid_token (req : request) : Prop :=
  match authorization req with
  | None => True
  | Some h => Str.startsWith h "Bearer " = false \/ verify_header h = None
  end.

End Auth.

(* ================================================================== *)
(** ** Pricing settings ([routes/settings.js]) *)

Module Settings.

Local Open Scope Q_scope.

Definition tier (lo hi d : Q) : value :=
  VObj [("minCases", VNum lo); ("maxCases", VNum hi); ("discount", VNum d)].

Definition region (id name : string) (distance : Q) : value :=
  VObj [("id", VStr id); ("name", VStr name); ("distance", VNum distance)].

Definition getDefaultSettings : value :=
  VObj [
    ("baseFreightRate", VNum 125);
    ("perMileRate", VNum 0.85);
    ("palletBreakSurcharge", VNum 15);
    ("minFreight", VNum 75);
    ("marginFoodBank", VNum 20);
    ("marginSchool", VNum 15);
    ("marginCorporate", VNum 25);
    ("volumeTiers", VArr [
       tier 0 50 0;
       tier 51 150 8;
       tier 151 300 15;
       tier 301 9999 22 ]);
    ("regions", VArr [
       region "east-bay" "East Bay" 25;
       region "sf" "San Francisco" 40;
       region "south-bay" "South Bay" 55;
       region "central-coast" "Central Coast" 120;
       region "sacramento" "Sacramento" 85;
       region "central-valley" "Central Valley" 150;
       region "socal" "Southern California" 400 ])
  ].

(** The error message, or [None] for JavaScript's [null]. *)
Definition validateSettings (settings : value) : option string :=
  if not_nonneg_number (prop settings "baseFreightRate") then
    Some "Base freight rate must be a non-negative number"
  else if not_nonneg_number (prop settings "perMileRate") then
    Some "Per-mile rate must be a non-negative number"
  else if not_nonneg_number (prop settings "palletBreakSurcharge") then
    Some "Pallet break surcharge must be a non-negative number"
  else if negb (isArray (prop settings "volumeTiers")) then
    Some "Volume tiers must be an array"
  else if negb (isArray (prop settings "regions")) then
    Some "Regions must be an array"
  else None.

(** [SELECT settings FROM pricing_settings WHERE organization_id = $1] *)
Definition select_settings (db : store) (org : string) : list settings_row :=
  filter (fun r => String.eqb (s_org r) org) (pricing_settings db).

(** [INSERT ... ON CONFLICT (organization_id) DO UPDATE SET settings = $2] *)
Fixpoint upsert (org : string) (s : value) (t : list settings_row)
    : list settings_row :=
  match t with
  | [] => [{| s_org := org; s_settings := s |}]
  | r :: t' =>
      if String.eqb (s_org r) org
      then {| s_org := org; s_settings := s |} :: t'
      else r :: upsert org s t'
  end.

(** GET /api/settings *)
Definition get_settings (db : store) (u : claims) : response :=
  match select_settings db (organizationId u) with
  | [] => json 200 (PSettings getDefaultSettings)
  | r :: _ => json 200 (PSettings (s_settings r))
  end.

(** PUT /api/settings, [body] being [req.body]. *)
Definition put_settings (db : store) (u : claims) (body : value)
    : store * response :=
  let settings := prop body "settings" in
  if negb (truthy settings) then
    (db, json 400 (PError "Settings object is required"))
  else
    match validateSettings settings with
    | Some validationError => (db, json 400 (PError validationError))
    | None =>
        (with_pricing_settings db
           (upsert (organizationId u) settings (pricing_settings db)),
         json 200 (PSuccessSettings settings))
    end.

(** The stored document of the organization, or the default one. *)
Definition settings_or_default (db : store) (u : claims) : value :=
  match select_settings db (organizationId u) with
  | [] => getDefaultSettings
  | r :: _ => s_settings r
  end.

(** GET /api/settings/regions; reading a field of [null] throws and the
    [catch] answers 500. *)
Definition get_regions (db : store) (u : claims) : response :=
  match settings_or_default db u with
  | VNull | VUndefined => json 500 (PError "Failed to get regions")
  | settings => json 200 (PRegions (or_else (prop settings "regions") (VArr [])))
  end.

(** GET /api/settings/volume-tiers *)
Definition get_volume_tiers (db : store) (u : claims) : response :=
  match settings_or_default db u with
  | VNull | VUndefined => json 500 (PError "Failed to get volume tiers")
  | settings =>
      json 200 (PVolumeTiers (or_else (prop settings "volumeTiers") (VArr [])))
  end.

(** POST /api/settings/reset *)
Definition reset_settings (db : store) (u : claims) : store * response :=
  let defaultSettings := getDefaultSettings in
  (with_pricing_settings db
     (upsert (organizationId u) defaultSettings (pricing_settings db)),
   json 200 (PSuccessSettings defaultSettings)).

(** *** The tier invariant of the data model *)

(** Tier [t] contains the case count [n]: [minCases <= n <= maxCases]. *)
Definition tier_contains (n : Z) (t : value) : bool :=
  match prop t "minCases", prop t "maxCases" with
  | VNum lo, VNum hi => Qle_bool lo (inject_Z n) && Qle_bool (inject_Z n) hi
  | _, _ => false
  end.

Definition tier_ordered (t : value) : bool :=
  match prop t "minCases", prop t "maxCases" with
  | VNum lo, VNum hi => Qle_bool lo hi
  | _, _ => false
  end.

Definition tiers_of (settings : value) : list value :=
  match prop settings "volumeTiers" with
  | VArr ts => ts
  | _ => []
  end.

Definition covered (settings : value) (n : Z) : bool :=
  existsb (tier_contains n) (tiers_of settings).

(** The number of tiers that contain [n]. *)
Definition matches (settings : value) (n : Z) : nat :=
  List.length (filter (tier_contains n) (tiers_of settings)).

(** "Volume tiers cover [0, infinity) with no gaps; minCases <= maxCases
    per tier." *)
Definition tiers_invariant (settings : value) : Prop :=
  (forall n : Z, (0 <= n)%Z -> covered settings n = true) /\
  forallb tier_ordered (tiers_of settings) = true.

(** What [validateSettings] does check. *)
Definition shape_ok (settings : value) : bool :=
  negb (not_nonneg_number (prop settings "baseFreightRate")) &&
  negb (not_nonneg_number (prop settings "perMileRate")) &&
  negb (not_nonneg_number (prop settings "palletBreakSurcharge")) &&
  isArray (prop settings "volumeTiers") &&
  isArray (prop settings "regions").

End Settings.

(* ================================================================== *)
(** ** Products ([routes/products.js]) *)

Module Products.

(** [v !== false] *)
Definition not_false (v : value) : bool :=
  match v with VBool false => false | _ => true end.

(** GET /api/products/:id *)
Definition get_product (db : store) (u : claims) (id : string) : response :=
  match filter (fun r => String.eqb (p_id r) id &&
                         String.eqb (p_org r) (organizationId u))
               (products db) with
  | [] => json 404 (PError "Product not found")
  | r :: _ => json 200 (PProduct r)
  end.

(** POST /api/products; [id] is the identifier drawn by [uuidv4()]. *)
Definition post_product (db : store) (u : claims) (id : string) (body : value)
    : store * response :=
  let name := prop body "name" in
  let costPerCase := prop body "costPerCase" in
  if negb (truthy name) || negb (truthy costPerCase) then
    (db, json 400 (PError "Name and cost per case are required"))
  else
    let row := {|
      p_id := id;
      p_org := organizationId u;
      p_name := name;
      p_unit_type := prop body "unitType";
      p_cases_per_pallet := prop body "casesPerPallet";
      p_cost_per_case := costPerCase;
      p_weight := prop body "weight";
      p_farm := prop body "farm";
      p_location := prop body "location";
      p_category := prop body "category";
      p_bipoc := or_else (prop body "bipoc") (VBool false);
      p_gap_certified := or_else (prop body "gapCertified") (VBool false);
      p_available := VBool (not_false (prop body "available"))
    |} in
    (with_products db (products db ++ [row]), json 201 (PProduct row)).

(** The same route in the single-file server. *)
Definition post_product_single_file (db : store) (u : claims) (id : string)
    (body : value) : store * response :=
  let name := prop body "name" in
  let costPerCase := prop body "costPerCase" in
  if negb (truthy name) || negb (truthy costPerCase) then
    (db, json 400 (PError "Name and cost required"))
  else
    let row := {|
      p_id := id;
      p_org := organizationId u;
      p_name := name;
      p_unit_type := prop body "unitType";
      p_cases_per_pallet := prop body "casesPerPallet";
      p_cost_per_case := costPerCase;
      p_weight := prop body "weight";
      p_farm := prop body "farm";
      p_location := prop body "location";
      p_category := prop body "category";
      p_bipoc := or_else (prop body "bipoc") (VBool false);
      p_gap_certified := or_else (prop body "gapCertified") (VBool false);
      p_available := VBool true
    |} in
    (with_products db (products db ++ [row]), json 201 (PProduct row)).

End Products.

(* ================================================================== *)
(** ** Customers ([routes/customers.js]) *)

Module Customers.

(** The fields a customer body carries. *)
Definition row_of (id org : string) (body : value) : customer_row := {|
  c_id := id;
  c_org := org;
  c_name := prop body "name";
  c_type := prop body "type";
  c_region_id := prop body "regionId";
  c_address := prop body "address";
  c_contact_email := prop body "contactEmail";
  c_contact_phone := prop body "contactPhone";
  c_notes := prop body "notes"
|}.

(** [WHERE id = $1 AND organization_id = $2] *)
Definition owned (id org : string) (r : customer_row) : bool :=
  String.eqb (c_id r) id && String.eqb (c_org r) org.

(** GET /api/customers (the [ORDER BY name] is left out). *)
Definition list_customers (db : store) (u : claims) : response :=
  json 200 (PCustomers
    (filter (fun r => String.eqb (c_org r) (organizationId u)) (customers db))).

(** GET /api/customers/:id *)
Definition get_customer (db : store) (u : claims) (id : string) : response :=
  match filter (owned id (organizationId u)) (customers db) with
  | [] => json 404 (PError "Customer not found")
  | r :: _ => json 200 (PCustomer r)
  end.

(** POST /api/customers *)
Definition post_customer (db : store) (u : claims) (id : string) (body : value)
    : store * response :=
  if negb (truthy (prop body "name")) then
    (db, json 400 (PError "Customer name is required"))
  else
    let row := row_of id (organizationId u) body in
    (with_customers db (customers db ++ [row]), json 201 (PCustomer row)).

(** [null] or [undefined], which the driver sends as SQL NULL. *)
Definition absent (v : value) : bool :=
  match v with VNull | VUndefined => true | _ => false end.

(** PUT /api/customers/:id.  The handler does not look at the body, and
    [name] is a NOT NULL column: the update of a row with no name in the
    body is refused and the [catch] answers 500. *)
Definition put_customer (db : store) (u : claims) (id : string) (body : value)
    : store * response :=
  let org := organizationId u in
  match filter (owned id org) (customers db) with
  | [] => (db, json 404 (PError "Customer not found"))
  | _ :: _ =>
      if absent (prop body "name") then
        (db, json 500 (PError "Failed to update customer"))
      else
        let row := row_of id org body in
        (with_customers db
           (map (fun r => if owned id org r then row else r) (customers db)),
         json 200 (PCustomer row))
  end.

(** [customer_id UUID REFERENCES customers(id) ON DELETE SET NULL] *)
Definition unlink_customer (id : string) (q : quote_row) : quote_row :=
  match q_customer_id q with
  | VStr c =>
      if String.eqb c id then
        {| q_id := q_id q; q_org := q_org q; q_customer_id := VNull;
           q_distance := q_distance q; q_notes := q_notes q;
           q_status := q_status q; q_created_by := q_created_by q |}
      else q
  | _ => q
  end.

(** DELETE /api/customers/:id *)
Definition delete_customer (db : store) (u : claims) (id : string)
    : store * response :=
  let org := organizationId u in
  match filter (owned id org) (customers db) with
  | [] => (db, json 404 (PError "Customer not found"))
  | _ :: _ =>
      (with_quotes
         (with_customers db
            (filter (fun r => negb (owned id org r)) (customers db)))
         (map (unlink_customer id) (quotes db)),
       json 200 PSuccess)
  end.

End Customers.

(* ================================================================== *)
(** ** Quotes ([routes/quotes.js]) *)

Module Quotes.

(** A line item of a request body, and the body of POST and PUT as the
    front end sends it: [items], when present, is an array of objects. *)
Record item_body := {
  productId : value;
  cases : value;
  marginPercent : value;
  unitCost : value;
  freightCost : value;
  lineTotal : value
}.

Record quote_body := {
  customerId : value;
  distance : value;
  notes : value;
  items : option (list item_body)
}.

Definition item_row_of (quoteId : string) (item : item_body) : item_row := {|
  qi_quote_id := quoteId;
  qi_product_id := productId item;
  qi_cases := cases item;
  qi_margin_percent := marginPercent item;
  qi_unit_cost := unitCost item;
  qi_freight_cost := freightCost item;
  qi_line_total := lineTotal item
|}.

(** [WHERE id = $1 AND organization_id = $2] *)
Definition owned (id org : string) (q : quote_row) : bool :=
  String.eqb (q_id q) id && String.eqb (q_org q) org.

(** [WHERE quote_id = $1] *)
Definition of_quote (id : string) (i : item_row) : bool :=
  String.eqb (qi_quote_id i) id.

Definition set_status (q : quote_row) (s : string) : quote_row :=
  {| q_id := q_id q; q_org := q_org q; q_customer_id := q_customer_id q;
     q_distance := q_distance q; q_notes := q_notes q;
     q_status := s; q_created_by := q_created_by q |}.

(** [SET customer_id = $1, distance = $2, notes = $3] *)
Definition set_header (q : quote_row) (b : quote_body) : quote_row :=
  {| q_id := q_id q; q_org := q_org q; q_customer_id := customerId b;
     q_distance := distance b; q_notes := notes b;
     q_status := q_status q; q_created_by := q_created_by q |}.

(** GET /api/quotes/:id (the columns joined in from [customers] and
    [products] for display are left out). *)
Definition get_quote (db : store) (u : claims) (id : string) : response :=
  match filter (owned id (organizationId u)) (quotes db) with
  | [] => json 404 (PError "Quote not found")
  | quote :: _ => json 200 (PQuote quote (filter (of_quote id) (quote_items db)))
  end.

(** POST /api/quotes; [quoteId] is the identifier drawn by [uuidv4()]. *)
Definition post_quote (db : store) (u : claims) (quoteId : string)
    (b : quote_body) : store * response :=
  let quote := {|
    q_id := quoteId;
    q_org := organizationId u;
    q_customer_id := customerId b;
    q_distance := distance b;
    q_notes := notes b;
    q_status := "draft";
    q_created_by := userId u
  |} in
  let items := match items b with Some xs => xs | None => [] end in
  let db1 := with_quotes db (quotes db ++ [quote]) in
  (with_quote_items db1
     (quote_items db1 ++ map (item_row_of quoteId) items),
   json 201 (PQuoteRow quote)).

(** PUT /api/quotes/:id *)
Definition put_quote (db : store) (u : claims) (id : string) (b : quote_body)
    : store * response :=
  (* ownership check *)
  match filter (owned id (organizationId u)) (quotes db) with
  | [] => (db, json 404 (PError "Quote not found"))
  | _ :: _ =>
      (* update of the quote row *)
      let db1 :=
        with_quotes db
          (map (fun q => if String.eqb (q_id q) id then set_header q b else q)
               (quotes db)) in
      (* items replaced if provided *)
      let db2 :=
        match items b with
        | Some xs =>
            with_quote_items db1
              (filter (fun i => negb (of_quote id i)) (quote_items db1)
               ++ map (item_row_of id) xs)
        | None => db1
        end in
      (db2, json 200 PSuccess)
  end.

(** POST /api/quotes/:id/finalize *)
Definition finalize_quote (db : store) (u : claims) (id : string)
    : store * response :=
  let org := organizationId u in
  match filter (owned id org) (quotes db) with
  | [] => (db, json 404 (PError "Quote not found"))
  | q :: _ =>
      (with_quotes db
         (map (fun r => if owned id org r then set_status r "sent" else r)
              (quotes db)),
       json 200 (PQuoteRow (set_status q "sent")))
  end.

(** DELETE /api/quotes/:id *)
Definition delete_quote (db : store) (u : claims) (id : string)
    : store * response :=
  let org := organizationId u in
  (* 'Delete items first (cascade should handle this, but being explicit)' *)
  let db1 :=
    with_quote_items db
      (filter (fun i => negb (of_quote id i)) (quote_items db)) in
  match filter (owned id org) (quotes db1) with
  | [] => (db1, json 404 (PError "Quote not found"))
  | _ :: _ =>
      (with_quotes db1 (filter (fun q => negb (owned id org q)) (quotes db1)),
       json 200 PSuccess)
  end.

(** *** The status order of the data model *)





End Quotes.

(* ================================================================== *)
(** ** The assistant routes ([routes/ai.js]) *)

Module AI.

Local Open Scope Q_scope.

(** An item of [context.quote.items] as the front end sends it: the
    numeric fields are numbers or absent, [bipoc] is any value. *)
Record line_item := {
  product : string;
  cases : option Q;
  lineTotal : option Q;
  pricePerCase : option Q;
  marginPercent : option Q;
  bipoc : value
}.

Record quote_ctx := {
  customerName : value;
  customerType : value;
  distance : value;
  items : option (list line_item)
}.

(** [context.quote] and [context.settings], [None] where they are falsy. *)
Record context := {
  quote : option quote_ctx;
  settings : option value
}.

(** [x || 0] for a number or an absent field. *)
Definition num_or_zero (x : option Q) : Q :=
  match x with
  | Some q => if Qeq_bool q 0 then 0 else q
  | None => 0
  end.

(** [items.reduce((sum, i) => sum + (i.cases || 0), 0)] *)
Definition totalCases (items : list line_item) : Q :=
  fold_left (fun sum i => sum + num_or_zero (cases i)) items 0.

(** [items.reduce((sum, i) => sum + (i.lineTotal || 0), 0)] *)
Definition totalValue (items : list line_item) : Q :=
  fold_left (fun sum i => sum + num_or_zero (lineTotal i)) items 0.

(** [items.filter(i => i.bipoc).length] *)
Definition bipocCount (items : list line_item) : nat :=
  List.length (filter (fun i => truthy (bipoc i)) items).

(** [bipocCount / items.length] *)
Definition bipocFraction (items : list line_item) : Q :=
  inject_Z (Z.of_nat (bipocCount items)) /
  inject_Z (Z.of_nat (List.length items)).

(** [Math.round(x)]: the nearest integer, halves upwards. *)
Definition round (x : Q) : Z := Qfloor (x + (1 # 2)).

(** [Math.round(bipocCount / items.length * 100)] *)
Definition bipocPercent (items : list line_item) : Z :=
  round (bipocFraction items * 100).

(** The figures of the totals paragraph of the prompt. *)
Record summary := {
  total_cases : Q;
  total_value : Q;
  bipoc_count : nat;
  item_count : nat;
  bipoc_fraction : Q;
  bipoc_percent : Z
}.

(** The figures are computed under
    [if (context.quote.items && context.quote.items.length > 0)]. *)
Definition summarize (q : quote_ctx) : option summary :=
  match items q with
  | Some ((_ :: _) as xs) =>
      Some {| total_cases := totalCases xs;
              total_value := totalValue xs;
              bipoc_count := bipocCount xs;
              item_count := List.length xs;
              bipoc_fraction := bipocFraction xs;
              bipoc_percent := bipocPercent xs |}
  | _ => None
  end.

(** The paragraphs [buildSystemPrompt] appends, in order. *)
Inductive block : Type :=
| Preamble
| QuoteHeader (customer customerType distance : value)
| Totals (s : summary)
| LineItems (items : list line_item)
| PricingSettings (baseFreightRate perMileRate palletBreakSurcharge : value)
| VolumeTiers (tiers : list value).

Definition quote_blocks (q : quote_ctx) : list block :=
  QuoteHeader (or_else (customerName q) (VStr "Not selected"))
              (or_else (customerType q) (VStr "Unknown"))
              (or_else (distance q) (VStr "Unknown"))
  :: match summarize q, items q with
     | Some s, Some xs => [Totals s; LineItems xs]
     | _, _ => []
     end.

Definition is_null (v : value) : bool :=
  match v with VNull | VUndefined => true | _ => false end.

(** [None] where the [volumeTiers.forEach] loop throws: on a truthy value
    that is no array, and on a [null] tier, whose fields cannot be read. *)
Definition settings_blocks (s : value) : option (list block) :=
  let head :=
    PricingSettings (prop s "baseFreightRate") (prop s "perMileRate")
                    (prop s "palletBreakSurcharge") in
  match prop s "volumeTiers" with
  | VArr ts => if existsb is_null ts then None else Some [head; VolumeTiers ts]
  | v => if truthy v then None else Some [head]
  end.

Definition buildSystemPrompt (ctx : option context) : option (list block) :=
  match ctx with
  | None => Some [Preamble]
  | Some c =>
      let qs := match quote c with Some q => quote_blocks q | None => [] end in
      match settings c with
      | None => Some (Preamble :: qs)
      | Some s =>
          match settings_blocks s with
          | Some ss => Some (Preamble :: qs ++ ss)
          | None => None
          end
      end
  end.

(** What [anthropic.messages.create] comes back with: the joined text
    blocks, or a rejection carrying [error.status]. *)
Inductive ai_outcome : Type :=
| AiText (text : string)
| AiError (status : option nat).

Definition analysisPrompt : string :=
  "Analyze this quote and provide:
1. Overall assessment (is this quote competitive and profitable?)
2. Margin analysis (are margins appropriate for this customer type?)
3. Freight optimization opportunities
4. BIPOC sourcing percentage and recommendations
5. Specific actionable recommendations

Be concise and use specific numbers from the quote.".

Section Handlers.

Variable jwt_verify : string -> option claims.

(** [process.env.ANTHROPIC_API_KEY] is set. *)
Variable api_key : bool.

(** The call to the model with a system prompt and a user message, and the
    call of the margin route, whose prompt is built from three body fields. *)
Variable anthropic : list block -> string -> ai_outcome.
Variable anthropic_margin : value -> value -> value -> ai_outcome.

(** [error.status === code] in a [catch] *)
Definition status_is (st : option nat) (code : nat) : bool :=
  match st with
  | Some k => Nat.eqb k code
  | None => false
  end.

(** POST /api/ai/chat after the middleware. *)
Definition chat (message : value) (ctx : option context) (req : request)
    : response :=
  match message with
  | VStr m =>
      if negb (truthy message) then json 400 (PError "Message is required")
      else if negb api_key then
        json 503
          (PError "AI service not configured. Please set ANTHROPIC_API_KEY.")
      else
        match buildSystemPrompt ctx with
        | None => json 500 (PError "Failed to get AI response")
        | Some systemPrompt =>
            match anthropic systemPrompt m with
            | AiText t => json 200 (PText t)
            | AiError st =>
                if status_is st 401 then
                  json 503 (PError "AI service authentication failed")
                else if status_is st 429 then
                  json 429
                    (PError "AI rate limit exceeded. Please try again later.")
                else json 500 (PError "Failed to get AI response")
            end
        end
  | _ => json 400 (PError "Message is required")
  end.

(** POST /api/ai/analyze-quote after the middleware. *)
Definition analyze_quote (q : option quote_ctx) (s : option value)
    (req : request) : response :=
  match q with
  | Some q' =>
      match items q' with
      | Some (_ :: _) =>
          match buildSystemPrompt
                  (Some {| quote := Some q'; settings := s |}) with
          | None => json 500 (PError "Failed to analyze quote")
          | Some systemPrompt =>
              match anthropic systemPrompt analysisPrompt with
              | AiText t => json 200 (PText t)
              | AiError _ => json 500 (PError "Failed to analyze quote")
              end
          end
      | _ => json 400 (PError "Quote with items is required")
      end
  | None => json 400 (PError "Quote with items is required")
  end.

(** POST /api/ai/suggest-margin after the middleware. *)
Definition suggest_margin (customerType totalCases totalValue : value)
    (req : request) : response :=
  match anthropic_margin customerType totalCases totalValue with
  | AiText t => json 200 (PText t)
  | AiError _ => json 500 (PError "Failed to get margin suggestion")
  end.

(** [router.post('/chat', optionalAuth, ...)] and its two siblings. *)
Definition chat_route (message : value) (ctx : option context) :=
  route (optionalAuth jwt_verify) (chat message ctx).

Definition analyze_quote_route (q : option quote_ctx) (s : option value) :=
  route (optionalAuth jwt_verify) (analyze_quote q s).

Definition suggest_margin_route (customerType totalCases totalValue : value) :=
  route (optionalAuth jwt_verify)
        (suggest_margin customerType totalCases totalValue).

End Handlers.

End AI.

(* ================================================================== *)
(** ** The pricing calculator (specification section 4.1)

    The freight and margin calculation runs in the front end
    ([frontend/js/logistics.js], [services/logistics.js]); the back end
    only stores its results.  The definitions of this module follow the
    written contract of [price_line]. *)

Module Pricing.

Local Open Scope Q_scope.

(** Modelled from the spec: the customer types of [price_line], after the
    margins "keyed by customer type" of the settings document. *)
Inductive customer_type : Type := FoodBank | School | Corporate.

(** Modelled from the spec: a volume tier as [price_line] reads it, a
    case-count range "mapping to a freight discount percent". *)
Record tier := {
  minCases : Q;
  maxCases : Q;
  discount : Q
}.

(** Modelled from the spec: the PricingSettings document as [price_line]
    reads it (currency per pallet and per mile, percentages as 0-100). *)
Record settings := {
  baseFreightRate : Q;
  perMileRate : Q;
  palletBreakSurcharge : Q;
  minFreight : Q;
  marginFoodBank : Q;
  marginSchool : Q;
  marginCorporate : Q;
  volumeTiers : list tier
}.

(** Modelled from the spec: the two Product fields [price_line] uses. *)
Record product := {
  casesPerPallet : positive;
  costPerCase : Q
}.

(** Modelled from the spec: the result of [price_line],
    "{unit_cost, freight_cost, line_total}". *)
Record line := {
  unit_cost : Q;
  freight_cost : Q;
  line_total : Q
}.

(** Modelled from the spec: the one failure of [price_line]. *)
Inductive error : Type := InvalidInput.

(** Modelled from the spec: [price_line] returns a line or fails, "never
    partial". *)
Inductive result : Type :=
| Ok (l : line)
| Err (e : error).

(** [q] is a whole number. *)
Definition is_integer (q : Q) : bool := Qeq_bool (inject_Z (Qfloor q)) q.

(** Modelled from the spec: the case-count check of [price_line], which is
    missing from the sources: "Fails with InvalidInput when cases <= 0 or
    cases is non-integer." *)
Definition valid_cases (cases : Q) : bool :=
  negb (Qle_bool cases 0) && is_integer cases.

(** Modelled from the spec: the per-pallet freight of [price_line]:
    "Freight per pallet = baseFreightRate + perMileRate * distance". *)
Definition freight_per_pallet (s : settings) (distance : Q) : Q :=
  baseFreightRate s + perMileRate s * distance.

(** Modelled from the spec: the pallet count of [price_line]:
    "ceil(cases / casesPerPallet) pallets' worth of freight cost". *)
Definition pallets (p : product) (cases : Q) : Z :=
  Qceiling (cases / inject_Z (Z.pos (casesPerPallet p))).

(** Modelled from the spec: the freight of a line before the discount, in
    [price_line]: "ceil(cases / casesPerPallet) pallets' worth of freight
    cost".  A partial pallet is charged as a whole one: the worked example
    prices 100 cases at 49 a pallet as "3 x (125 + 0.85 x 40) = 3 x 159 =
    477" with [palletBreakSurcharge] set to 15, so no further amount is
    added for the partial third pallet; how that percentage enters is the
    open question of section 9 and is no part of this definition. *)
Definition gross_freight (p : product) (cases distance : Q) (s : settings) : Q :=
  inject_Z (pallets p cases) * freight_per_pallet s distance.

(** Modelled from the spec: the tier lookup of [price_line]: "first tier
    where minCases <= cases <= maxCases; ties resolved by first match in
    declaration order". *)
Definition find_tier (s : settings) (cases : Q) : option tier :=
  find (fun t => Qle_bool (minCases t) cases && Qle_bool cases (maxCases t))
       (volumeTiers s).

(** Modelled from the spec: the freight total of [price_line]: the tier's
    percent discount applied to the freight, and "Freight total floors at
    minFreight per line regardless of the computed value". *)
Definition freight_total (p : product) (cases distance : Q) (s : settings)
    (t : tier) : Q :=
  Qmax (gross_freight p cases distance s * (1 - discount t / 100))
       (minFreight s).

(** Modelled from the spec: the sale price of [price_line]:
    "Sale price per case = costPerCase * (1 + marginPercent/100)". *)
Definition sale_price_per_case (p : product) (marginPercent : Q) : Q :=
  costPerCase p * (1 + marginPercent / 100).

(** Modelled from the spec: the margin of [price_line] when the line does
    not override it: "the customer-type default from settings". *)
Definition default_margin (s : settings) (c : customer_type) : Q :=
  match c with
  | FoodBank => marginFoodBank s
  | School => marginSchool s
  | Corporate => marginCorporate s
  end.

(** Modelled from the spec: [price_line] with the margin given, which is
    missing from the sources.  [InvalidInput] covers the bad case count and,
    after the taxonomy of section 7, a negative rate and a settings document
    in which no tier matches; [unit_cost] is the cost per case at the time
    of the quote (comment of the [unit_cost] column);
    "line_total = sale_price_per_case * cases + freight_total". *)
Definition price_line_with (p : product) (cases marginPercent distance : Q)
    (s : settings) : result :=
  if negb (valid_cases cases) then Err InvalidInput
  else if negb (Qle_bool 0 (baseFreightRate s)) ||
          negb (Qle_bool 0 (perMileRate s)) then Err InvalidInput
  else
    match find_tier s cases with
    | None => Err InvalidInput
    | Some t =>
        let freight := freight_total p cases distance s t in
        Ok {| unit_cost := costPerCase p;
              freight_cost := freight;
              line_total :=
                sale_price_per_case p marginPercent * cases + freight |}
    end.

(** Modelled from the spec: the contract
    [price_line(product, cases, customer_type, distance, settings)], which
    is missing from the sources. *)
Definition price_line (p : product) (cases : Q) (c : customer_type)
    (distance : Q) (s : settings) : result :=
  price_line_with p cases (default_margin s c) distance s.

(** The input of the worked example: Gala apples (49 cases a pallet, 26.95
    a case), the default settings document and a food bank (margin 20). *)
Definition example_product : product :=
  {| casesPerPallet := 49; costPerCase := 26.95 |}.

Definition example_settings : settings :=
  {| baseFreightRate := 125;
     perMileRate := 0.85;
     palletBreakSurcharge := 15;
     minFreight := 75;
     marginFoodBank := 20;
     marginSchool := 15;
     marginCorporate := 25;
     volumeTiers := [
       {| minCases := 0; maxCases := 50; discount := 0 |};
       {| minCases := 51; maxCases := 150; discount := 8 |};
       {| minCases := 151; maxCases := 300; discount := 15 |};
       {| minCases := 301; maxCases := 9999; discount := 22 |} ] |}.

End Pricing.

(* ================================================================== *)
(** ** Sample data used by the examples below *)

Module Samples.

Definition empty_store : store :=
  {| pricing_settings := []; products := []; customers := [];
     quotes := []; quote_items := [] |}.

(** Identifiers are uuids, as the columns require. *)
Definition org_a : string := "11111111-1111-1111-1111-111111111111".
Definition org_b : string := "33333333-3333-3333-3333-333333333333".
Definition quote_1 : string := "5a1e0001-0000-4000-8000-000000000001".
Definition product_1 : string := "9b0d0001-0000-4000-8000-000000000001".
Definition product_2 : string := "9b0d0002-0000-4000-8000-000000000002".

Definition alice : claims :=
  {| userId := "22222222-2222-2222-2222-222222222222";
     email := "admin@sabagrocers.org";
     organizationId := org_a; role := "admin" |}.

Definition bob : claims :=
  {| userId := "44444444-4444-4444-4444-444444444444";
     email := "bob@elsewhere.example";
     organizationId := org_b; role := "admin" |}.

(** A settings document with the default rates and the given tiers. *)
Definition settings_with_tiers (tiers : list value) : value :=
  VObj [
    ("baseFreightRate", VNum 125%Q);
    ("perMileRate", VNum 0.85%Q);
    ("palletBreakSurcharge", VNum 15%Q);
    ("volumeTiers", VArr tiers);
    ("regions", VArr [])
  ].

(** A document [validateSettings] lets through: one tier, upside down. *)
Definition inverted_settings : value :=
  settings_with_tiers [Settings.tier 10%Q 5%Q 0%Q].

(** A store in which only organization [org_b] has a settings row. *)
Definition other_tenant_settings : store :=
  {| pricing_settings := [{| s_org := org_b; s_settings := VObj [] |}];
     products := []; customers := []; quotes := []; quote_items := [] |}.

(** A product body with a cost of zero. *)
Definition free_sample_body : value :=
  VObj [("name", VStr "Sample box"); ("costPerCase", VNum 0%Q)].

(** A quote of organization [org_a], already rejected, with two lines. *)
Definition rejected_quote : quote_row :=
  {| q_id := quote_1; q_org := org_a; q_customer_id := VNull;
     q_distance := VNum 40%Q; q_notes := VNull;
     q_status := "rejected"; q_created_by := userId alice |}.

Definition line_of (quote prod : string) (n : Q) : item_row :=
  {| qi_quote_id := quote; qi_product_id := VStr prod; qi_cases := VNum n;
     qi_margin_percent := VNum 20%Q; qi_unit_cost := VNum 26.95%Q;
     qi_freight_cost := VNum 0%Q; qi_line_total := VNum 0%Q |}.

Definition tenant_store : store :=
  {| pricing_settings := []; products := []; customers := [];
     quotes := [rejected_quote];
     quote_items := [line_of quote_1 product_1 100%Q;
                     line_of quote_1 product_2 10%Q] |}.

(** A request without an [Authorization] header, and one with a token. *)
Definition anonymous : request :=
  {| authorization := None; user := None |}.

Definition with_token : request :=
  {| authorization := Some "Bearer alice.token"; user := None |}.

(** A verifier that knows one token. *)
Definition verify_alice (token : string) : option claims :=
  if String.eqb token "alice.token" then Some alice else None.

(** A quote context without lines, and one with two lines, one of them
    from a BIPOC vendor. *)
Definition empty_quote : AI.quote_ctx :=
  {| AI.customerName := VStr "Alameda Food Bank";
     AI.customerType := VStr "Food Bank";
     AI.distance := VNum 25%Q;
     AI.items := Some [] |}.

Definition two_line_quote : AI.quote_ctx :=
  {| AI.customerName := VStr "Alameda Food Bank";
     AI.customerType := VStr "Food Bank";
     AI.distance := VNum 25%Q;
     AI.items := Some [
       {| AI.product := "Apples, Gala"; AI.cases := Some 100%Q;
          AI.lineTotal := Some 3672.84%Q; AI.pricePerCase := Some 32.34%Q;
          AI.marginPercent := Some 20%Q; AI.bipoc := VBool false |};
       {| AI.product := "Mandarins"; AI.cases := Some 25%Q;
          AI.lineTotal := Some 900%Q; AI.pricePerCase := Some 30.6%Q;
          AI.marginPercent := Some 20%Q; AI.bipoc := VBool true |} ] |}.

(** A stand-in for PBKDF2 that derives the key from password and salt by
    concatenation; good enough to run the two password functions. *)
Definition toy_kdf (password salt : string) (_ _ : N) (_ : string)
    : list byte :=
  list_byte_of_string (password ++ salt).

End Samples.

(* ================================================================== *)
(** ** Accounts ([routes/auth.js] with [generateToken] of the middleware)

    The bodies are taken as the front end sends them: each field a string
    or absent.  A character of a string stands for one code unit. *)

Module Accounts.

Record organization_row := {
  o_id : string;
  o_name : string
}.

Record user_row := {
  u_id : string;
  u_org : string;
  u_email : string;
  u_password_hash : string;
  u_name : string;
  u_role : string
}.

(** The store together with the two tables only these routes use. *)
Record state := {
  db : store;
  organizations : list organization_row;
  users : list user_row
}.

Record register_body := {
  r_email : option string;
  r_password : option string;
  r_name : option string;
  r_organizationName : option string
}.

Record login_body := {
  l_email : option string;
  l_password : option string
}.

(** The JSON bodies these routes send. *)
Inductive account_payload : Type :=
| AError (msg : string)
| ASession (id email name role : string) (token : string)
| AProfile (id email name role organization_name : string)
| AToken (token : string).

Record account_response := {
  a_status : nat;
  a_body : account_payload
}.

Definition reply (code : nat) (p : account_payload)
    : account_response :=
  {| a_status := code; a_body := p |}.

(** [!x] for a string or an absent field. *)
Definition missing (x : option string) : bool :=
  match x with
  | Some s => String.eqb s ""
  | None => true
  end.

(** [getDefaultSettings] of [routes/auth.js]: five regions. *)
Definition getDefaultSettings : value :=
  VObj [
    ("baseFreightRate", VNum 125%Q);
    ("perMileRate", VNum 0.85%Q);
    ("palletBreakSurcharge", VNum 15%Q);
    ("minFreight", VNum 75%Q);
    ("marginFoodBank", VNum 20%Q);
    ("marginSchool", VNum 15%Q);
    ("marginCorporate", VNum 25%Q);
    ("volumeTiers", VArr [
       Settings.tier 0%Q 50%Q 0%Q;
       Settings.tier 51%Q 150%Q 8%Q;
       Settings.tier 151%Q 300%Q 15%Q;
       Settings.tier 301%Q 9999%Q 22%Q ]);
    ("regions", VArr [
       Settings.region "east-bay" "East Bay" 25%Q;
       Settings.region "sf" "San Francisco" 40%Q;
       Settings.region "south-bay" "South Bay" 55%Q;
       Settings.region "central-coast" "Central Coast" 120%Q;
       Settings.region "sacramento" "Sacramento" 85%Q ])
  ].

Section Routes.

Variable pbkdf2Sync : string -> string -> N -> N -> string -> list byte.

(** [jwt.sign(payload, JWT_SECRET, { expiresIn: '7d' })] *)
Variable jwt_sign : claims -> string.

(** [String.prototype.toLowerCase] *)
Variable toLowerCase : string -> string.

(** [generateToken(user)] reads four fields of its argument. *)
Definition generateToken (id email organization_id role : string) : string :=
  jwt_sign {| userId := id; email := email;
              organizationId := organization_id; role := role |}.

(** [SELECT ... FROM users WHERE email = $1] *)
Definition by_email (st : state) (email : string) : list user_row :=
  filter (fun r => String.eqb (u_email r) email) (users st).

(** POST /api/auth/register.  [rnd] is the buffer of
    [crypto.randomBytes(16)]; [orgId] and [userId] are the identifiers the
    database draws for the two new rows. *)
Definition register (st : state) (rnd : list byte) (orgId userId : string)
    (b : register_body) : state * account_response :=
  match r_email b, r_password b, r_name b with
  | Some email, Some password, Some name =>
      if missing (r_email b) || missing (r_password b) || missing (r_name b)
      then (st, reply 400 (AError "Email, password, and name are required"))
      else if Nat.ltb (String.length password) 8 then
        (st, reply 400 (AError "Password must be at least 8 characters"))
      else
        match by_email st (toLowerCase email) with
        | _ :: _ => (st, reply 409 (AError "Email already registered"))
        | [] =>
            let passwordHash := hashPassword pbkdf2Sync rnd password in
            let org := {|
              o_id := orgId;
              o_name := match r_organizationName b with
                        | Some n =>
                            if missing (r_organizationName b)
                            then name ++ "'s Organization" else n
                        | None => name ++ "'s Organization"
                        end |} in
            let user := {|
              u_id := userId;
              u_org := orgId;
              u_email := toLowerCase email;
              u_password_hash := passwordHash;
              u_name := name;
              u_role := "admin" |} in
            ({| db := with_pricing_settings (db st)
                        (pricing_settings (db st) ++
                         [{| s_org := orgId;
                             s_settings := getDefaultSettings |}]);
                organizations := organizations st ++ [org];
                users := users st ++ [user] |},
             reply 201
               (ASession (u_id user) (u_email user) (u_name user)
                  (u_role user)
                  (generateToken (u_id user) (u_email user) (u_org user)
                     (u_role user))))
        end
  | _, _, _ =>
      (st, reply 400 (AError "Email, password, and name are required"))
  end.

(** POST /api/auth/login *)
Definition login (st : state) (b : login_body) : account_response :=
  match l_email b, l_password b with
  | Some email, Some password =>
      if missing (l_email b) || missing (l_password b)
      then reply 400 (AError "Email and password are required")
      else
        match by_email st (toLowerCase email) with
        | [] => reply 401 (AError "Invalid email or password")
        | user :: _ =>
            if negb (verifyPassword pbkdf2Sync password
                       (u_password_hash user))
            then reply 401 (AError "Invalid email or password")
            else
              reply 200
                (ASession (u_id user) (u_email user) (u_name user)
                   (u_role user)
                   (generateToken (u_id user) (u_email user) (u_org user)
                      (u_role user)))
        end
  | _, _ => reply 400 (AError "Email and password are required")
  end.

(** GET /api/auth/me after [requireAuth]: users joined with their
    organization. *)
Definition me (st : state) (u : claims) : account_response :=
  match filter (fun r => String.eqb (u_id r) (userId u)) (users st) with
  | [] => reply 404 (AError "User not found")
  | r :: _ =>
      match filter (fun o => String.eqb (o_id o) (u_org r))
                   (organizations st) with
      | [] => reply 404 (AError "User not found")
      | o :: _ =>
          reply 200
            (AProfile (u_id r) (u_email r) (u_name r) (u_role r) (o_name o))
      end
  end.

(** POST /api/auth/refresh after [requireAuth] *)
Definition refresh (u : claims) : account_response :=
  reply 200
    (AToken (generateToken (userId u) (email u) (organizationId u) (role u))).

End Routes.

End Accounts.

(* ================================================================== *)
(** ** More of the product routes ([routes/products.js]) *)

Module Catalog.

(** [WHERE id = $1 AND organization_id = $2] *)
Definition owned_product (id org : string) (r : product_row) : bool :=
  String.eqb (p_id r) id && String.eqb (p_org r) org.

(** A line of some quote names the product:
    [product_id UUID NOT NULL REFERENCES products(id) ON DELETE RESTRICT]. *)
Definition referenced (db : store) (id : string) : bool :=
  existsb (fun i => match qi_product_id i with
                    | VStr p => String.eqb p id
                    | _ => false
                    end)
          (quote_items db).

(** [null] or [undefined], which the driver sends as SQL NULL. *)
Definition sql_null (v : value) : bool :=
  match v with VNull | VUndefined => true | _ => false end.

(** PUT /api/products/:id.  The row keeps its id and organization and takes
    every other column from the body as it is; [name] and [cost_per_case]
    are NOT NULL columns, so an update of a row with one of them missing
    fails and the [catch] answers 500. *)
Definition put_product (db : store) (u : claims) (id : string) (body : value)
    : store * response :=
  let org := organizationId u in
  match filter (owned_product id org) (products db) with
  | [] => (db, json 404 (PError "Product not found"))
  | _ :: _ =>
      if sql_null (prop body "name") || sql_null (prop body "costPerCase") then
        (db, json 500 (PError "Failed to update product"))
      else
        let row := {|
          p_id := id;
          p_org := org;
          p_name := prop body "name";
          p_unit_type := prop body "unitType";
          p_cases_per_pallet := prop body "casesPerPallet";
          p_cost_per_case := prop body "costPerCase";
          p_weight := prop body "weight";
          p_farm := prop body "farm";
          p_location := prop body "location";
          p_category := prop body "category";
          p_bipoc := prop body "bipoc";
          p_gap_certified := prop body "gapCertified";
          p_available := prop body "available"
        |} in
        (with_products db
           (map (fun r => if owned_product id org r then row else r)
                (products db)),
         json 200 (PProduct row))
  end.

(** DELETE /api/products/:id.  Deleting a row that a quote line names
    violates the foreign key, and the [catch] answers 500. *)
Definition delete_product (db : store) (u : claims) (id : string)
    : store * response :=
  let org := organizationId u in
  match filter (owned_product id org) (products db) with
  | [] => (db, json 404 (PError "Product not found"))
  | _ :: _ =>
      if referenced db id then
        (db, json 500 (PError "Failed to delete product"))
      else
        (with_products db
           (filter (fun r => negb (owned_product id org r)) (products db)),
         json 200 PSuccess)
  end.

End Catalog.

(* ================================================================== *)
(** ** Identifiers and column types of the schema *)

Module Uuid.

Definition is_hex (c : ascii) : bool :=
  let n := nat_of_ascii c in
  (Nat.leb 48 n && Nat.leb n 57) || (Nat.leb 97 n && Nat.leb n 102).

(** [n] hexadecimal digits, then the rest. *)
Fixpoint hex_run (n : nat) (s : string) : option string :=
  match n with
  | 0 => Some s
  | S n' =>
      match s with
      | String c s' => if is_hex c then hex_run n' s' else None
      | EmptyString => None
      end
  end.

(** [n] hexadecimal digits and a hyphen, then the rest. *)
Definition group (n : nat) (s : string) : option string :=
  match hex_run n s with
  | Some (String c s') => if Ascii.eqb c "-" then Some s' else None
  | _ => None
  end.

(** The text in which [uuidv4()] draws and PostgreSQL prints a uuid: groups
    of 8, 4, 4, 4 and 12 lower-case hexadecimal digits.  PostgreSQL reads
    other spellings of the same uuid too, and refuses any other text. *)
Definition is_uuid (s : string) : bool :=
  match group 8 s with
  | Some s1 =>
      match group 4 s1 with
      | Some s2 =>
          match group 4 s2 with
          | Some s3 =>
              match group 4 s3 with
              | Some s4 =>
                  match hex_run 12 s4 with
                  | Some EmptyString => true
                  | _ => false
                  end
              | None => false
              end
          | None => false
          end
      | None => false
      end
  | None => false
  end.

End Uuid.

Module Columns.

(** A value that a [VARCHAR(n)] column takes as it is: a string of at most
    [n] characters, or nothing. *)
Definition varchar (n : nat) (v : value) : bool :=
  match v with
  | VStr s => Nat.leb (String.length s) n
  | VNull | VUndefined => true
  | _ => false
  end.

(** A value that a [TEXT] column takes as it is. *)
Definition text (v : value) : bool :=
  match v with
  | VStr _ | VNull | VUndefined => true
  | _ => false
  end.

(** The columns of [customers] that a customer body fills:
    [name VARCHAR(255)], [type VARCHAR(100)], [region_id VARCHAR(100)],
    [address TEXT], [contact_email VARCHAR(255)],
    [contact_phone VARCHAR(50)], [notes TEXT]. *)
Definition customer_fits (body : value) : bool :=
  varchar 255 (prop body "name") &&
  varchar 100 (prop body "type") &&
  varchar 100 (prop body "regionId") &&
  text (prop body "address") &&
  varchar 255 (prop body "contactEmail") &&
  varchar 50 (prop body "contactPhone") &&
  text (prop body "notes").

End Columns.

(* ================================================================== *)
(** ** The row filters of the [WHERE] clauses, by name *)

Module Queries.

(** [WHERE organization_id = $1] on [pricing_settings] *)
Definition for_org (org : string) (r : settings_row) : bool :=
  String.eqb (s_org r) org.

(** The name [register] gives the new organization:
    [organizationName || `${name}'s Organization`]. *)
Definition org_name (b : Accounts.register_body) (name : string) : string :=
  match Accounts.r_organizationName b with
  | Some n => if String.eqb n "" then name ++ "'s Organization" else n
  | None => name ++ "'s Organization"
  end.

End Queries.

(* ================================================================== *)
(** ** More sample data *)

Module Fixtures.

(** A key derivation that always returns the same 64 bytes. *)
Definition flat_kdf (password salt : string) (_ _ : N) (_ : string)
    : list byte :=
  repeat x00 64.

(** Sixteen bytes for a salt. *)
Definition salt16 : list byte := repeat x2a 16.

Definition customer_1 : string := "c0570001-0000-4000-8000-000000000001".
Definition product_3 : string := "9b0d0003-0000-4000-8000-000000000003".

Definition food_bank_body : value :=
  VObj [("name", VStr "Alameda Food Bank"); ("type", VStr "Food Bank");
        ("regionId", VStr "east-bay")].

Definition food_bank : customer_row :=
  Customers.row_of customer_1 Samples.org_a food_bank_body.

Definition apples_body : value :=
  VObj [("name", VStr "Apples, Gala"); ("unitType", VStr "125ct");
        ("casesPerPallet", VNum 49%Q); ("costPerCase", VNum 26.95%Q);
        ("farm", VStr "Sambado and Sons"); ("bipoc", VBool false)].

Definition product_row_of (id : string) : product_row :=
  {| p_id := id; p_org := Samples.org_a; p_name := VStr "Apples, Gala";
     p_unit_type := VStr "125ct"; p_cases_per_pallet := VNum 49%Q;
     p_cost_per_case := VNum 26.95%Q; p_weight := VNum 40%Q;
     p_farm := VStr "Sambado and Sons"; p_location := VStr "Linden";
     p_category := VStr "Fruits"; p_bipoc := VBool false;
     p_gap_certified := VBool true; p_available := VBool true |}.

(** Organization [org_a] with a customer, two products, and a draft quote
    for that customer with one line that names the first product. *)
Definition draft_quote : quote_row :=
  {| q_id := Samples.quote_1; q_org := Samples.org_a;
     q_customer_id := VStr customer_1;
     q_distance := VNum 25%Q; q_notes := VNull;
     q_status := "draft"; q_created_by := userId Samples.alice |}.

(** A model call that always answers, and one that always fails with the
    given status. *)
Definition answering (_ : list AI.block) (_ : string) : AI.ai_outcome :=
  AI.AiText "Raise the margin.".

Definition failing (st : option nat) (_ : list AI.block) (_ : string)
    : AI.ai_outcome :=
  AI.AiError st.

(** A settings document that passes [validateSettings] with a [null]
    among its tiers. *)
Definition null_tier_settings : value :=
  Samples.settings_with_tiers [Settings.tier 0%Q 50%Q 0%Q; VNull].

(** A signer that issues the user id as the token, and the verifier that
    knows the token of one user. *)
Definition sign_id (c : claims) : string := userId c.

Definition user_9 : string := "77777777-7777-4777-8777-777777777777".
Definition org_9 : string := "88888888-8888-4888-8888-888888888888".

Definition carol : claims :=
  {| userId := user_9; email := "carol@farm.example";
     organizationId := org_9; role := "admin" |}.

Definition verify_carol (token : string) : option claims :=
  if String.eqb token user_9 then Some carol else None.

(** Lower-casing restricted to the letter C, enough for the examples. *)
Fixpoint lower_c (s : string) : string :=
  match s with
  | EmptyString => EmptyString
  | String c s' =>
      String (if Ascii.eqb c "C" then "c"%char else c) (lower_c s')
  end.

Definition no_accounts : Accounts.state :=
  {| Accounts.db := Samples.empty_store;
     Accounts.organizations := [];
     Accounts.users := [] |}.

Definition carol_signs_up : Accounts.register_body :=
  {| Accounts.r_email := Some "Carol@farm.example";
     Accounts.r_password := Some "correct horse";
     Accounts.r_name := Some "Carol";
     Accounts.r_organizationName := None |}.

Definition quote_2 : string := "5a1e0002-0000-4000-8000-000000000002".

(** The body of a quote with two lines. *)
Definition two_lines_body : Quotes.quote_body :=
  {| Quotes.customerId := VStr customer_1;
     Quotes.distance := VNum 40%Q;
     Quotes.notes := VStr "Deliver before noon";
     Quotes.items := Some [
       {| Quotes.productId := VStr Samples.product_1;
          Quotes.cases := VNum 100%Q; Quotes.marginPercent := VNum 20%Q;
          Quotes.unitCost := VNum 26.95%Q;
          Quotes.freightCost := VNum 438.84%Q;
          Quotes.lineTotal := VNum 3672.84%Q |};
       {| Quotes.productId := VStr product_3;
          Quotes.cases := VNum 10%Q; Quotes.marginPercent := VNum 15%Q;
          Quotes.unitCost := VNum 26.95%Q;
          Quotes.freightCost := VNum 159%Q;
          Quotes.lineTotal := VNum 468.93%Q |} ] |}.

Definition customer_2 : string := "c0570002-0000-4000-8000-000000000002".

(** A customer of organization [org_b]. *)
Definition school : customer_row :=
  Customers.row_of customer_2 Samples.org_b
    (VObj [("name", VStr "Hayward Unified School District");
           ("type", VStr "School District")]).

Definition shop : store :=
  {| pricing_settings := [];
     products := [product_row_of Samples.product_1; product_row_of product_3];
     customers := [food_bank];
     quotes := [draft_quote];
     quote_items :=
       [Samples.line_of Samples.quote_1 Samples.product_1 100%Q] |}.

(** The same store with the customer of organization [org_b] as well. *)
Definition two_tenants : store := with_customers shop [food_bank; school].

(** The same store after a second quote with two lines was created. *)
Definition two_quotes : store :=
  fst (Quotes.post_quote shop Samples.alice quote_2 two_lines_body).


End Fixtures.

(* ================================================================== *)
(** * Properties *)

(** ** Strings *)

Module StrFacts.
Import Str.

Lemma has_char_app (c : ascii) (a b : string) :
  has_char c (a ++ b) = has_char c a || has_char c b.
Proof.
  induction a as [|x a IH]; simpl; [reflexivity|].
  now rewrite IH, orb_assoc.
Qed.

Lemma split_absent (sep : ascii) (s : string) :
  has_char sep s = false -> split sep s = [s].
Proof.
  induction s as [|c s IH]; simpl; intro H; [reflexivity|].
  apply orb_false_iff in H as [Hc Hs].
  now rewrite Hc, (IH Hs).
Qed.

Lemma split_at_first (sep : ascii) (a b : string) :
  has_char sep a = false ->
  split sep (a ++ String sep b) = a :: split sep b.
Proof.
  induction a as [|c a IH]; simpl; intro H.
  - now rewrite Ascii.eqb_refl.
  - apply orb_false_iff in H as [Hc Ha].
    now rewrite Hc, (IH Ha).
Qed.

Lemma hex_of_byte_no_colon (b : byte) : has_char ":" (hex_of_byte b) = false.
Proof. destruct b; reflexivity. Qed.

Lemma to_hex_no_colon (bs : list byte) : has_char ":" (to_hex bs) = false.
Proof.
  induction bs as [|b bs IH]; [reflexivity|].
  cbn [to_hex].
  now rewrite has_char_app, hex_of_byte_no_colon, IH.
Qed.

End StrFacts.

(** ** Password hashing *)

Section PasswordSpec.

Variable pbkdf2Sync : string -> string -> N -> N -> string -> list byte.

(** C8. For every password string [p] and every salt drawn by
    [hashPassword], [verifyPassword p (hashPassword p)] is [true]: the stored
    string is [salt:hash] with both parts hexadecimal, so splitting at the
    colon gives the same salt back and the digest is recomputed from it. *)
Theorem verifyPassword_hashPassword (rnd : list byte) (p : string) :
  verifyPassword pbkdf2Sync p (hashPassword pbkdf2Sync rnd p) = true.
Proof.
  unfold verifyPassword, hashPassword.
  change (Str.to_hex rnd ++ ":" ++ ?h)%string
    with (Str.to_hex rnd ++ String ":" h)%string.
  rewrite StrFacts.split_at_first by apply StrFacts.to_hex_no_colon.
  rewrite StrFacts.split_absent by apply StrFacts.to_hex_no_colon.
  simpl. apply String.eqb_refl.
Qed.

End PasswordSpec.

(** The stored format on a small run, and a wrong password turned down. *)
Lemma hashPassword_format :
  hashPassword Samples.toy_kdf [x0a; xff] "ab" = "0aff:616230616666".
Proof. reflexivity. Qed.

Lemma verifyPassword_wrong_password :
  verifyPassword Samples.toy_kdf "hunter3"
    (hashPassword Samples.toy_kdf [x0a; xff] "hunter2") = false.
Proof. reflexivity. Qed.

(** ** Authentication middleware *)

Section AuthSpec.

Variable jwt_verify : string -> option claims.

Lemma optionalAuth_next (req : request) :
  exists u, optionalAuth jwt_verify req = Next (set_user req u).
Proof.
  unfold optionalAuth.
  destruct (authorization req) as [h|]; [|now exists None].
  destruct (Str.startsWith h "Bearer "); [|now exists None].
  destruct (verify_header jwt_verify h) as [u|];
    [now exists (Some u)|now exists None].
Qed.

Lemma optionalAuth_anonymous (req : request) :
  no_valid_token jwt_verify req ->
  optionalAuth jwt_verify req = Next (set_user req None).
Proof.
  unfold no_valid_token, optionalAuth.
  destruct (authorization req) as [h|]; [|reflexivity].
  intros [H|H]; rewrite H; [reflexivity|].
  now destruct (Str.startsWith h "Bearer ").
Qed.

Lemma requireAuth_rejects (req : request) :
  no_valid_token jwt_verify req ->
  exists msg, requireAuth jwt_verify req = Respond (json 401 (PError msg)).
Proof.
  unfold no_valid_token, requireAuth.
  destruct (authorization req) as [h|]; [|eauto].
  intros [H|H]; rewrite H; simpl; eauto.
  destruct (Str.startsWith h "Bearer "); simpl; eauto.
Qed.

End AuthSpec.

(* ================================================================== *)
(** ** Pricing settings *)

Module SettingsSpec.
Import Settings Samples.

Lemma Qle_bool_inject (a b : Z) :
  Qle_bool (inject_Z a) (inject_Z b) = (a <=? b)%Z.
Proof. unfold Qle_bool; simpl. now rewrite !Z.mul_1_r. Qed.

Lemma select_settings_none (db : store) (org : string) :
  (forall r, In r (pricing_settings db) -> s_org r <> org) ->
  select_settings db org = [].
Proof.
  unfold select_settings.
  induction (pricing_settings db) as [|r t IH]; simpl; intro H; [reflexivity|].
  destruct (String.eqb_spec (s_org r) org) as [E|_].
  - exfalso. apply (H r); auto.
  - apply IH. intros r' Hr'. apply H. now right.
Qed.

(** C7. For every organization without a row in [pricing_settings], GET
    /api/settings answers 200 with the default settings document, and the
    regions and volume-tier routes answer 200 with the lists of that
    document: the missing configuration is no error. *)
Theorem get_settings_falls_back_to_default (db : store) (u : claims) :
  (forall r, In r (pricing_settings db) -> s_org r <> organizationId u) ->
  get_settings db u = json 200 (PSettings getDefaultSettings) /\
  get_regions db u = json 200 (PRegions (prop getDefaultSettings "regions")) /\
  get_volume_tiers db u =
    json 200 (PVolumeTiers (prop getDefaultSettings "volumeTiers")).
Proof.
  intro H. apply select_settings_none in H.
  unfold get_settings, get_regions, get_volume_tiers, settings_or_default.
  rewrite H. repeat split; reflexivity.
Qed.

Lemma get_settings_falls_back_to_default_witness :
  (forall r, In r (pricing_settings other_tenant_settings) ->
             s_org r <> organizationId alice) /\
  get_settings other_tenant_settings alice =
    json 200 (PSettings getDefaultSettings).
Proof.
  assert (H : forall r, In r (pricing_settings other_tenant_settings) ->
                        s_org r <> organizationId alice).
  { intros r [<-|[]]. simpl. discriminate. }
  split; [exact H|].
  exact (proj1 (get_settings_falls_back_to_default
                  other_tenant_settings alice H)).
Defined.

Lemma validateSettings_shape (s : value) :
  validateSettings s = None <-> shape_ok s = true.
Proof.
  unfold validateSettings, shape_ok.
  destruct (not_nonneg_number (prop s "baseFreightRate")); simpl;
    [split; discriminate|].
  destruct (not_nonneg_number (prop s "perMileRate")); simpl;
    [split; discriminate|].
  destruct (not_nonneg_number (prop s "palletBreakSurcharge")); simpl;
    [split; discriminate|].
  destruct (isArray (prop s "volumeTiers")); simpl; [|split; discriminate].
  destruct (isArray (prop s "regions")); simpl; split;
    solve [reflexivity | discriminate].
Qed.

Lemma default_covered (n : Z) :
  covered getDefaultSettings n = true <-> (0 <= n <= 9999)%Z.
Proof.
  unfold covered. cbn -[Qle_bool inject_Z].
  change 0%Q with (inject_Z 0). change 50%Q with (inject_Z 50).
  change 51%Q with (inject_Z 51). change 150%Q with (inject_Z 150).
  change 151%Q with (inject_Z 151). change 300%Q with (inject_Z 300).
  change 301%Q with (inject_Z 301). change 9999%Q with (inject_Z 9999).
  rewrite !Qle_bool_inject.
  rewrite !orb_true_iff, !andb_true_iff, !Z.leb_le. lia.
Qed.

Lemma default_matches_once (n : Z) :
  (0 <= n <= 9999)%Z -> matches getDefaultSettings n = 1.
Proof.
  intro H. unfold matches. cbn -[Qle_bool inject_Z].
  change 0%Q with (inject_Z 0). change 50%Q with (inject_Z 50).
  change 51%Q with (inject_Z 51). change 150%Q with (inject_Z 150).
  change 151%Q with (inject_Z 151). change 300%Q with (inject_Z 300).
  change 301%Q with (inject_Z 301). change 9999%Q with (inject_Z 9999).
  rewrite !Qle_bool_inject.
  repeat match goal with
         | |- context [(?a <=? ?b)%Z] => destruct (Z.leb_spec a b)
         end; simpl; try reflexivity; lia.
Qed.

(** C4 (amended). [validateSettings] accepts a document exactly when its
    three rates are non-negative numbers and [volumeTiers] and [regions]
    are arrays, whatever the tiers contain: with good rates every list of
    tiers passes.  The tiers of the default
    document satisfy [minCases <= maxCases] and contain every whole case
    count from 0 to 9999 exactly once, and no count outside that range. *)
Theorem validateSettings_checks_shape_only :
  (forall s, validateSettings s = None <-> shape_ok s = true) /\
  (forall tiers, validateSettings (settings_with_tiers tiers) = None) /\
  (forall n : Z, covered getDefaultSettings n = true <-> (0 <= n <= 9999)%Z) /\
  (forall n : Z, (0 <= n <= 9999)%Z -> matches getDefaultSettings n = 1) /\
  forallb tier_ordered (tiers_of getDefaultSettings) = true.
Proof.
  split; [exact validateSettings_shape|].
  split; [reflexivity|].
  split; [exact default_covered|].
  split; [exact default_matches_once|reflexivity].
Qed.

(** C4, as stated, fails: a document whose only tier runs from 10 down to 5
    passes [validateSettings] and is stored by PUT /api/settings, and the
    default document has no tier for 10000 cases. *)
Lemma tiers_invariant_not_enforced :
  validateSettings inverted_settings = None /\
  put_settings empty_store alice (VObj [("settings", inverted_settings)]) =
    ({| pricing_settings :=
          [{| s_org := org_a; s_settings := inverted_settings |}];
        products := []; customers := []; quotes := []; quote_items := [] |},
     json 200 (PSuccessSettings inverted_settings)) /\
  ~ tiers_invariant inverted_settings /\
  ~ tiers_invariant getDefaultSettings.
Proof.
  split; [reflexivity|]. split; [reflexivity|]. split.
  - intros [_ H]. discriminate H.
  - intros [H _]. specialize (H 10000%Z ltac:(lia)).
    apply default_covered in H. lia.
Qed.

End SettingsSpec.

(* ================================================================== *)
(** ** Products *)

Module ProductsSpec.
Import Products Samples.

(** C10. A product-creation request whose [costPerCase] is the number 0 is
    answered 400 'Name and cost per case are required' and the store is
    left as it was: the handler tests [!costPerCase], and 0 is falsy. *)
Theorem post_product_rejects_zero_cost
    (db : store) (u : claims) (id : string) (body : value) (q : Q) :
  (q == 0)%Q ->
  prop body "costPerCase" = VNum q ->
  post_product db u id body =
    (db, json 400 (PError "Name and cost per case are required")).
Proof.
  intros Hq Hc. unfold post_product. rewrite Hc. simpl.
  apply Qeq_bool_iff in Hq. rewrite Hq. simpl.
  now rewrite orb_true_r.
Qed.

Lemma post_product_rejects_zero_cost_witness :
  ((0 == 0)%Q /\ prop free_sample_body "costPerCase" = VNum 0%Q) /\
  post_product empty_store alice product_1 free_sample_body =
    (empty_store, json 400 (PError "Name and cost per case are required")).
Proof.
  assert (H1 : (0 == 0)%Q) by reflexivity.
  assert (H2 : prop free_sample_body "costPerCase" = VNum 0%Q)
    by reflexivity.
  split; [split; assumption|].
  exact (post_product_rejects_zero_cost empty_store alice product_1
           free_sample_body 0%Q H1 H2).
Defined.

(** The single-file server rejects the same request, with a shorter text. *)
Lemma post_product_single_file_rejects_zero_cost
    (db : store) (u : claims) (id : string) (body : value) (q : Q) :
  (q == 0)%Q ->
  prop body "costPerCase" = VNum q ->
  post_product_single_file db u id body =
    (db, json 400 (PError "Name and cost required")).
Proof.
  intros Hq Hc. unfold post_product_single_file. rewrite Hc. simpl.
  apply Qeq_bool_iff in Hq. rewrite Hq. simpl.
  now rewrite orb_true_r.
Qed.

(** A positive cost with a name is stored under the caller's organization. *)
Lemma post_product_accepts_positive_cost :
  post_product empty_store alice product_1
    (VObj [("name", VStr "Kale"); ("costPerCase", VNum 12.5%Q)]) =
  (with_products empty_store
     [{| p_id := product_1; p_org := org_a; p_name := VStr "Kale";
         p_unit_type := VUndefined; p_cases_per_pallet := VUndefined;
         p_cost_per_case := VNum 12.5%Q; p_weight := VUndefined;
         p_farm := VUndefined; p_location := VUndefined;
         p_category := VUndefined; p_bipoc := VBool false;
         p_gap_certified := VBool false; p_available := VBool true |}],
   json 201 (PProduct
     {| p_id := product_1; p_org := org_a; p_name := VStr "Kale";
        p_unit_type := VUndefined; p_cases_per_pallet := VUndefined;
        p_cost_per_case := VNum 12.5%Q; p_weight := VUndefined;
        p_farm := VUndefined; p_location := VUndefined;
        p_category := VUndefined; p_bipoc := VBool false;
        p_gap_certified := VBool false; p_available := VBool true |})).
Proof. reflexivity. Qed.

End ProductsSpec.

(* ================================================================== *)
(** ** Quotes and tenancy *)

Module QuotesSpec.
Import Quotes Samples.

Lemma filter_none {A : Type} (f : A -> bool) (l : list A) :
  (forall x, In x l -> f x = false) -> filter f l = [].
Proof.
  induction l as [|a l IH]; simpl; intro H; [reflexivity|].
  rewrite (H a) by now left. apply IH. intros x Hx. apply H. now right.
Qed.

Lemma filter_some {A : Type} (f : A -> bool) (l : list A) (x : A) :
  In x l -> f x = true -> filter f l <> [].
Proof.
  intros Hin Hf E.
  assert (Hx : In x (filter f l)) by (apply filter_In; auto).
  rewrite E in Hx. destruct Hx.
Qed.

(** The first [DELETE] of the handler does not look at the caller. *)
Lemma delete_quote_items (db : store) (u : claims) (id : string) :
  quote_items (fst (delete_quote db u id)) =
  filter (fun i => negb (of_quote id i)) (quote_items db).
Proof.
  unfold delete_quote. simpl.
  destruct (filter (owned id (organizationId u)) (quotes db)); reflexivity.
Qed.

Lemma not_owned (db : store) (u : claims) (id : string) :
  (forall q, In q (quotes db) -> q_id q = id -> q_org q <> organizationId u) ->
  filter (owned id (organizationId u)) (quotes db) = [].
Proof.
  intro H. apply filter_none. intros q Hq. unfold owned.
  destruct (String.eqb_spec (q_id q) id) as [E|]; [|reflexivity].
  destruct (String.eqb_spec (q_org q) (organizationId u)) as [E'|];
    [|reflexivity].
  now destruct (H q Hq E).
Qed.

(** DELETE /api/quotes/:id on a quote that is not the caller's: 404, and
    the lines of that quote are deleted all the same. *)
Lemma delete_quote_foreign (db : store) (u : claims) (id : string) :
  (forall q, In q (quotes db) -> q_id q = id -> q_org q <> organizationId u) ->
  delete_quote db u id =
    (with_quote_items db
       (filter (fun i => negb (of_quote id i)) (quote_items db)),
     json 404 (PError "Quote not found")).
Proof.
  intro H. unfold delete_quote. simpl. now rewrite (not_owned db u id H).
Qed.

(** PUT /api/quotes/:id checks ownership before it writes. *)
Lemma put_quote_foreign (db : store) (u : claims) (id : string)
    (b : quote_body) :
  (forall q, In q (quotes db) -> q_id q = id -> q_org q <> organizationId u) ->
  put_quote db u id b = (db, json 404 (PError "Quote not found")).
Proof.
  intro H. unfold put_quote. now rewrite (not_owned db u id H).
Qed.

(** The customer routes write rows of the caller's organization only: a
    row of another organization is still there, unchanged, after each. *)
Lemma customers_isolated (db : store) (u : claims) (id : string)
    (body : value) (c : customer_row) :
  In c (customers db) -> c_org c <> organizationId u ->
  In c (customers (fst (Customers.post_customer db u id body))) /\
  In c (customers (fst (Customers.put_customer db u id body))) /\
  In c (customers (fst (Customers.delete_customer db u id))).
Proof.
  intros Hin Horg.
  assert (Hn : Customers.owned id (organizationId u) c = false).
  { unfold Customers.owned.
    destruct (String.eqb_spec (c_org c) (organizationId u)) as [E|];
      [now destruct Horg|apply andb_false_r]. }
  split; [|split].
  - unfold Customers.post_customer.
    destruct (negb (truthy (prop body "name"))); simpl; [exact Hin|].
    apply in_or_app. now left.
  - unfold Customers.put_customer.
    destruct (filter _ (customers db)); simpl; [exact Hin|].
    destruct (Customers.absent (prop body "name")); simpl; [exact Hin|].
    apply in_map_iff. exists c. now rewrite Hn.
  - unfold Customers.delete_customer.
    destruct (filter _ (customers db)); simpl; [exact Hin|].
    apply filter_In. now rewrite Hn.
Qed.

(** DELETE /api/customers/:id touches nothing that is not the caller's. *)
Lemma delete_customer_foreign (db : store) (u : claims) (id : string) :
  (forall c, In c (customers db) -> c_id c = id ->
             c_org c <> organizationId u) ->
  Customers.delete_customer db u id =
    (db, json 404 (PError "Customer not found")).
Proof.
  intro H. unfold Customers.delete_customer.
  rewrite filter_none; [reflexivity|].
  intros c Hc. unfold Customers.owned.
  destruct (String.eqb_spec (c_id c) id) as [E|]; [|reflexivity].
  destruct (String.eqb_spec (c_org c) (organizationId u)) as [E'|];
    [|reflexivity].
  now destruct (H c Hc E).
Qed.

(** C3, at the failing input.  The quote [quote_1] and its two lines
    belong to organization [org_a].  A caller whose token names [org_b]
    sends DELETE /api/quotes/:id for that quote: the handler answers 404
    and leaves the quote in place, but both of its lines are gone, removed
    before the ownership test; the same caller's PUT on that quote changes
    nothing. *)
Theorem delete_quote_removes_lines_of_another_tenant :
  q_org rejected_quote <> organizationId bob /\
  delete_quote tenant_store bob quote_1 =
    ({| pricing_settings := []; products := []; customers := [];
        quotes := [rejected_quote]; quote_items := [] |},
     json 404 (PError "Quote not found")) /\
  put_quote tenant_store bob quote_1
    {| customerId := VNull; distance := VNum 1%Q; notes := VNull;
       items := Some [] |} =
    (tenant_store, json 404 (PError "Quote not found")).
Proof. split; [discriminate|]. split; reflexivity. Qed.








End QuotesSpec.

(* ================================================================== *)
(** ** The assistant routes *)

Module AISpec.
Import AI Samples.

Local Open Scope Q_scope.

Lemma bipocCount_le (xs : list line_item) :
  (bipocCount xs <= List.length xs)%nat.
Proof.
  unfold bipocCount.
  induction xs as [|x xs IH]; simpl; [lia|].
  destruct (truthy (bipoc x)); simpl; lia.
Qed.

Lemma ratio_bounds (c n : nat) :
  (c <= n)%nat -> (0 < n)%nat ->
  0 <= inject_Z (Z.of_nat c) / inject_Z (Z.of_nat n) <= 1.
Proof.
  intros Hc Hn.
  assert (Hpos : 0 < inject_Z (Z.of_nat n)).
  { change 0 with (inject_Z 0). rewrite <- Zlt_Qlt. lia. }
  split.
  - apply Qle_shift_div_l; [exact Hpos|].
    rewrite Qmult_0_l. change 0 with (inject_Z 0). rewrite <- Zle_Qle. lia.
  - apply Qle_shift_div_r; [exact Hpos|].
    rewrite Qmult_1_l. rewrite <- Zle_Qle. lia.
Qed.

Lemma round_percent_bounds (f : Q) :
  0 <= f <= 1 -> (0 <= round (f * 100) <= 100)%Z.
Proof.
  intros [H0 H1]. unfold round. split.
  - change 0%Z with (Qfloor (1 # 2)). apply Qfloor_resp_le.
    rewrite <- (Qplus_0_l (1 # 2)) at 1.
    apply Qplus_le_compat; [|apply Qle_refl].
    apply Qmult_le_0_compat; [exact H0|discriminate].
  - change 100%Z with (Qfloor (100 + (1 # 2))). apply Qfloor_resp_le.
    apply Qplus_le_compat; [|apply Qle_refl].
    rewrite <- (Qmult_1_l 100) at 2.
    apply Qmult_le_compat_r; [exact H1|discriminate].
Qed.

(** C2 (amended).  For a quote with at least one line, the prompt builder
    computes the totals paragraph: the BIPOC count is the number of lines
    whose [bipoc] flag is truthy, the fraction is that count over the
    number of lines and lies in [0,1], and the printed percentage lies in
    [0,100].  For a quote whose [items] are absent or empty no figures are
    computed at all (so nothing is divided by zero), and the analyze-quote
    route answers 400 'Quote with items is required'. *)
Theorem summarize_only_with_lines (q : quote_ctx) :
  (forall x xs, items q = Some (x :: xs) ->
     exists s, summarize q = Some s /\
       total_cases s = totalCases (x :: xs) /\
       total_value s = totalValue (x :: xs) /\
       bipoc_count s =
         List.length (filter (fun i => truthy (bipoc i)) (x :: xs)) /\
       item_count s = List.length (x :: xs) /\
       bipoc_fraction s ==
         inject_Z (Z.of_nat (bipoc_count s)) /
         inject_Z (Z.of_nat (item_count s)) /\
       0 <= bipoc_fraction s <= 1 /\
       (0 <= bipoc_percent s <= 100)%Z) /\
  (items q = None \/ items q = Some [] ->
     summarize q = None /\
     forall anthropic s req,
       analyze_quote anthropic (Some q) s req =
         json 400 (PError "Quote with items is required")).
Proof.
  split.
  - intros x xs E. unfold summarize. rewrite E.
    eexists. split; [reflexivity|]. simpl.
    assert (B : 0 <= bipocFraction (x :: xs) <= 1).
    { apply ratio_bounds; [apply bipocCount_le|simpl; lia]. }
    repeat split; try reflexivity; try apply B.
    + apply (round_percent_bounds _ B).
    + apply (round_percent_bounds _ B).
  - intros [E|E]; unfold summarize, analyze_quote; rewrite E; split;
      reflexivity.
Qed.

Lemma summarize_only_with_lines_witness :
  items empty_quote = Some [] /\
  summarize empty_quote = None /\
  (exists s, summarize two_line_quote = Some s /\ bipoc_fraction s == 1 # 2).
Proof.
  split; [reflexivity|]. split.
  - exact (proj1 (proj2 (summarize_only_with_lines empty_quote)
                    (or_intror eq_refl))).
  - destruct (proj1 (summarize_only_with_lines two_line_quote) _ _ eq_refl)
      as (s & E & _).
    exists s. split; [exact E|].
    injection E as <-. reflexivity.
Defined.

(** C2, as stated, fails on the empty quote: the figures [{0, 0, 0}] are
    not produced, and the route that summarizes a quote turns it down. *)
Lemma empty_quote_not_summarized :
  summarize empty_quote = None /\
  buildSystemPrompt (Some {| quote := Some empty_quote; settings := None |}) =
    Some [Preamble;
          QuoteHeader (VStr "Alameda Food Bank") (VStr "Food Bank")
                      (VNum 25)] /\
  analyze_quote (fun _ _ => AiText "fine") (Some empty_quote) None anonymous =
    json 400 (PError "Quote with items is required").
Proof. repeat split; reflexivity. Qed.

Section Routes.

Variable jwt_verify : string -> option claims.
Variable api_key : bool.
Variable anthropic : list block -> string -> ai_outcome.
Variable anthropic_margin : value -> value -> value -> ai_outcome.

Ltac answered := try solve [simpl; discriminate].

Lemma chat_not_401 (message : value) (ctx : option context) (req : request) :
  status (chat api_key anthropic message ctx req) <> 401%nat.
Proof.
  unfold chat.
  destruct message as [| | | |m| |]; answered.
  destruct (negb (truthy (VStr m))); answered.
  destruct (negb api_key); answered.
  destruct (buildSystemPrompt ctx) as [systemPrompt|]; answered.
  destruct (anthropic systemPrompt m) as [t|st]; answered.
  destruct (status_is st 401); answered.
  destruct (status_is st 429); answered.
Qed.

Lemma analyze_quote_not_401 (q : option quote_ctx) (s : option value)
    (req : request) :
  status (analyze_quote anthropic q s req) <> 401%nat.
Proof.
  unfold analyze_quote.
  destruct q as [q|]; answered.
  destruct (items q) as [[|x xs]|]; answered.
  destruct (buildSystemPrompt (Some {| quote := Some q; settings := s |}))
    as [systemPrompt|]; answered.
  destruct (anthropic systemPrompt analysisPrompt); answered.
Qed.

Lemma suggest_margin_not_401 (ct tc tv : value) (req : request) :
  status (suggest_margin anthropic_margin ct tc tv req) <> 401%nat.
Proof.
  unfold suggest_margin.
  destruct (anthropic_margin ct tc tv); answered.
Qed.

(** C9.  On the three assistant routes a request without a usable bearer
    token is never answered 401: [optionalAuth] sets [req.user] to null and
    calls [next()], so the handler runs on the anonymous request, and no
    handler answers 401 itself. *)
Theorem ai_routes_run_without_token
    (req : request) (message : value) (ctx : option context)
    (q : option quote_ctx) (s : option value) (ct tc tv : value) :
  no_valid_token jwt_verify req ->
  optionalAuth jwt_verify req = Next (set_user req None) /\
  (chat_route jwt_verify api_key anthropic message ctx req =
     chat api_key anthropic message ctx (set_user req None) /\
   status (chat_route jwt_verify api_key anthropic message ctx req)
     <> 401%nat) /\
  (analyze_quote_route jwt_verify anthropic q s req =
     analyze_quote anthropic q s (set_user req None) /\
   status (analyze_quote_route jwt_verify anthropic q s req) <> 401%nat) /\
  (suggest_margin_route jwt_verify anthropic_margin ct tc tv req =
     suggest_margin anthropic_margin ct tc tv (set_user req None) /\
   status (suggest_margin_route jwt_verify anthropic_margin ct tc tv req)
     <> 401%nat).
Proof.
  intro H. pose proof (optionalAuth_anonymous jwt_verify req H) as E.
  unfold chat_route, analyze_quote_route, suggest_margin_route, route.
  rewrite E.
  split; [reflexivity|].
  split; [split; [reflexivity|apply chat_not_401]|].
  split; [split; [reflexivity|apply analyze_quote_not_401]|].
  split; [reflexivity|apply suggest_margin_not_401].
Qed.

End Routes.

Lemma ai_routes_run_without_token_witness :
  no_valid_token (fun _ => None) anonymous /\
  chat_route (fun _ => None) true (fun _ _ => AiText "Raise the margin.")
    (VStr "Is this quote profitable?") None anonymous =
  json 200 (PText "Raise the margin.").
Proof.
  assert (H : no_valid_token (fun _ => None) anonymous) by exact I.
  split; [exact H|].
  destruct (ai_routes_run_without_token (fun _ => None) true
              (fun _ _ => AiText "Raise the margin.")
              (fun _ _ _ => AiText "20")
              anonymous (VStr "Is this quote profitable?") None
              None None VNull VNull VNull H) as (_ & (E & _) & _).
  rewrite E. reflexivity.
Defined.

(** With [requireAuth] in front, the same request is turned away, and a
    request with a good token goes through with the token's claims. *)
Lemma requireAuth_anonymous :
  requireAuth verify_alice anonymous =
    Respond (json 401 (PError "Authentication required")).
Proof. reflexivity. Qed.

Lemma requireAuth_with_token :
  requireAuth verify_alice with_token =
    Next {| authorization := Some "Bearer alice.token"; user := Some alice |} /\
  optionalAuth verify_alice with_token =
    Next {| authorization := Some "Bearer alice.token"; user := Some alice |}.
Proof. split; reflexivity. Qed.

End AISpec.

(* ================================================================== *)
(** ** The pricing calculator *)

Module PricingSpec.
Import Pricing.

Local Open Scope Q_scope.

Lemma is_integer_spec (q : Q) :
  is_integer q = true <-> exists z : Z, q == inject_Z z.
Proof.
  unfold is_integer. rewrite Qeq_bool_iff. split.
  - intro H. exists (Qfloor q). now symmetry.
  - intros [z Hz]. rewrite (Qfloor_comp _ _ Hz), Qfloor_Z. now symmetry.
Qed.

Lemma valid_cases_spec (cases : Q) :
  valid_cases cases = true <->
  0 < cases /\ exists z : Z, cases == inject_Z z.
Proof.
  unfold valid_cases.
  rewrite andb_true_iff, negb_true_iff, is_integer_spec.
  split; intros [H1 H2]; split; try exact H2.
  - apply Qnot_le_lt. intro H. apply Qle_bool_iff in H. congruence.
  - destruct (Qle_bool cases 0) eqn:E; [|reflexivity].
    apply Qle_bool_iff in E. now apply Qle_not_lt in E.
Qed.

(** C6.  For every input whose case count is at most 0 or is no whole
    number, [price_line] fails with [InvalidInput]; the result is the error
    alone, with no line attached. *)
Theorem price_line_rejects_bad_case_count
    (p : product) (cases : Q) (c : customer_type) (distance : Q)
    (s : settings) :
  cases <= 0 \/ ~ (exists z : Z, cases == inject_Z z) ->
  price_line p cases c distance s = Err InvalidInput /\
  forall l, price_line p cases c distance s <> Ok l.
Proof.
  intro H.
  assert (E : price_line p cases c distance s = Err InvalidInput).
  { unfold price_line, price_line_with.
    destruct (valid_cases cases) eqn:E; [|reflexivity].
    apply valid_cases_spec in E as [Hpos Hint].
    destruct H as [H|H]; [|now destruct H].
    now apply Qle_not_lt in H. }
  split; [exact E|]. intros l. rewrite E. discriminate.
Qed.

Lemma price_line_rejects_bad_case_count_witness :
  (0 <= 0 \/ ~ (exists z : Z, 0 == inject_Z z)) /\
  price_line example_product 0 FoodBank 40 example_settings = Err InvalidInput.
Proof.
  assert (H : 0 <= 0 \/ ~ (exists z : Z, 0 == inject_Z z))
    by (left; apply Qle_refl).
  split; [exact H|].
  exact (proj1 (price_line_rejects_bad_case_count
                  example_product 0 FoodBank 40 example_settings H)).
Defined.

(** A case count of two and a half is turned down as well. *)
Lemma price_line_rejects_fraction :
  price_line example_product 2.5 FoodBank 40 example_settings =
    Err InvalidInput.
Proof. reflexivity. Qed.

(** C1 (amended).  For the worked example (26.95 a case, 49 cases a
    pallet, 100 cases, 40 miles, base rate 125, 0.85 a mile, surcharge 15,
    floor 75, tier 51-150 at 8 percent, margin 20) [price_line] returns
    freight 438.84 and total 3672.84: 3 pallets at 125 + 0.85 * 40 = 159
    make 477, the discounted freight is 477 * 0.92 = 438.84, above the
    floor, the sale price is 26.95 * 1.20 = 32.34 a case, and the total
    32.34 * 100 + 438.84. *)
Theorem price_line_worked_example :
  pallets example_product 100 = 3%Z /\
  freight_per_pallet example_settings 40 == 159 /\
  gross_freight example_product 100 40 example_settings == 477 /\
  477 * 0.92 == 438.84 /\
  sale_price_per_case example_product 20 == 32.34 /\
  32.34 * 100 + 438.84 == 3672.84 /\
  (exists l,
     price_line example_product 100 FoodBank 40 example_settings = Ok l /\
     unit_cost l == 26.95 /\
     freight_cost l == 438.84 /\
     line_total l == 3672.84).
Proof.
  repeat (split; [reflexivity|]).
  eexists. split; [reflexivity|]. repeat split; reflexivity.
Qed.

(** C1, as stated, fails: the freight of the worked example is not 439.08
    and its total not 3673.08, since 477 * 0.92 is 438.84. *)
Lemma price_line_worked_example_is_not_439_08 :
  ~ (exists l,
       price_line example_product 100 FoodBank 40 example_settings = Ok l /\
       freight_cost l == 439.08 /\ line_total l == 3673.08) /\
  ~ 477 * 0.92 == 439.08.
Proof.
  split.
  - intros (l & E & H & _). injection E as <-. discriminate H.
  - discriminate.
Qed.

End PricingSpec.

(* ================================================================== *)
(** * Further properties of the code *)

(** ** Stored password hashes *)

Module PasswordFacts.
Import Str StrFacts.

Lemma length_app (a b : string) :
  String.length (a ++ b) = String.length a + String.length b.
Proof. induction a as [|c a IH]; simpl; [reflexivity|now rewrite IH]. Qed.

Lemma to_hex_length (bs : list byte) :
  String.length (to_hex bs) = 2 * List.length bs.
Proof.
  induction bs as [|b bs IH]; [reflexivity|].
  cbn [to_hex List.length]. rewrite length_app, IH. simpl. lia.
Qed.

Lemma hex_digit_inj (a b : N) :
  (a < 16)%N -> (b < 16)%N -> hex_digit a = hex_digit b -> a = b.
Proof.
  intros Ha Hb.
  assert (Ca : In a (map N.of_nat (seq 0 16))).
  { apply in_map_iff. exists (N.to_nat a). split; [lia|].
    apply in_seq. lia. }
  assert (Cb : In b (map N.of_nat (seq 0 16))).
  { apply in_map_iff. exists (N.to_nat b). split; [lia|].
    apply in_seq. lia. }
  simpl in Ca, Cb.
  repeat (destruct Ca as [<-|Ca]; [|]); try contradiction;
    repeat (destruct Cb as [<-|Cb]; [|]); try contradiction;
    intro E; solve [reflexivity | discriminate E].
Qed.

Lemma hex_of_byte_inj (a b : byte) : hex_of_byte a = hex_of_byte b -> a = b.
Proof.
  unfold hex_of_byte. intro E. injection E as E1 E2.
  pose proof (Byte.to_N_bounded a) as Ba.
  pose proof (Byte.to_N_bounded b) as Bb.
  apply hex_digit_inj in E1;
    [|apply N.Div0.div_lt_upper_bound; lia
     |apply N.Div0.div_lt_upper_bound; lia].
  apply hex_digit_inj in E2; [|apply N.mod_lt; lia|apply N.mod_lt; lia].
  assert (E : Byte.to_N a = Byte.to_N b).
  { rewrite (N.div_mod (Byte.to_N a) 16), (N.div_mod (Byte.to_N b) 16) by lia.
    now rewrite E1, E2. }
  assert (S : Some a = Some b)
    by (rewrite <- (Byte.of_to_N a), <- (Byte.of_to_N b); now rewrite E).
  now injection S.
Qed.

Lemma to_hex_inj (xs ys : list byte) : to_hex xs = to_hex ys -> xs = ys.
Proof.
  revert ys. induction xs as [|x xs IH]; intros [|y ys] E.
  - reflexivity.
  - discriminate E.
  - discriminate E.
  - cbn [to_hex] in E. unfold hex_of_byte in E. cbn [append] in E.
    injection E as E1 E2 E3.
    f_equal; [|now apply IH].
    apply hex_of_byte_inj. unfold hex_of_byte. now rewrite E1, E2.
Qed.

Section Facts.

Variable pbkdf2Sync : string -> string -> N -> N -> string -> list byte.

Lemma split_stored (rnd : list byte) (p : string) :
  split ":" (hashPassword pbkdf2Sync rnd p) =
    [to_hex rnd;
     to_hex (pbkdf2Sync p (to_hex rnd) 1000 64 "sha512")].
Proof.
  unfold hashPassword.
  change (to_hex rnd ++ ":" ++ ?h)%string
    with (to_hex rnd ++ String ":" h)%string.
  rewrite split_at_first by apply to_hex_no_colon.
  now rewrite split_absent by apply to_hex_no_colon.
Qed.

(** X1.  A password is accepted against a stored hash exactly when it derives
    the same key under the stored salt. *)
Theorem verifyPassword_iff_same_key (rnd : list byte) (p p' : string) :
  verifyPassword pbkdf2Sync p' (hashPassword pbkdf2Sync rnd p) = true <->
  pbkdf2Sync p' (to_hex rnd) 1000 64 "sha512" =
  pbkdf2Sync p (to_hex rnd) 1000 64 "sha512".
Proof.
  unfold verifyPassword. rewrite split_stored. simpl.
  rewrite String.eqb_eq. split.
  - intro E. symmetry. now apply to_hex_inj.
  - intro E. now rewrite E.
Qed.

(** X2.  A stored value without a colon verifies no password. *)
Theorem verifyPassword_without_colon (p stored : string) :
  has_char ":" stored = false ->
  verifyPassword pbkdf2Sync p stored = false.
Proof.
  intro H. unfold verifyPassword. now rewrite (split_absent _ _ H).
Qed.

(** X3.  With a 16-byte salt and a 64-byte key the stored string has 161
    characters, within the 255 of the [password_hash] column. *)
Theorem hashPassword_length (rnd : list byte) (p : string) :
  List.length rnd = 16 ->
  List.length (pbkdf2Sync p (to_hex rnd) 1000 64 "sha512") = 64 ->
  String.length (hashPassword pbkdf2Sync rnd p) = 161.
Proof.
  intros Hr Hk. unfold hashPassword.
  rewrite !length_app, !to_hex_length, Hr, Hk. reflexivity.
Qed.

(** X4.  Stored hashes made with different salts differ, whatever the
    passwords. *)
Theorem hashPassword_salt_inj (rnd rnd' : list byte) (p p' : string) :
  hashPassword pbkdf2Sync rnd p = hashPassword pbkdf2Sync rnd' p' ->
  rnd = rnd'.
Proof.
  intro E. pose proof (split_stored rnd p) as S.
  rewrite E, split_stored in S. injection S as S _.
  symmetry. now apply to_hex_inj.
Qed.

End Facts.

Lemma verifyPassword_without_colon_witness :
  has_char ":" "password123" = false /\
  verifyPassword Fixtures.flat_kdf "password123" "password123" = false.
Proof.
  assert (H : has_char ":" "password123" = false) by reflexivity.
  split; [exact H|].
  exact (verifyPassword_without_colon Fixtures.flat_kdf
           "password123" "password123" H).
Defined.

Lemma hashPassword_length_witness :
  (List.length Fixtures.salt16 = 16 /\
   List.length (Fixtures.flat_kdf "secret" (to_hex Fixtures.salt16)
                  1000 64 "sha512") = 64) /\
  String.length (hashPassword Fixtures.flat_kdf Fixtures.salt16 "secret")
    = 161.
Proof.
  assert (H1 : List.length Fixtures.salt16 = 16) by reflexivity.
  assert (H2 : List.length (Fixtures.flat_kdf "secret"
                              (to_hex Fixtures.salt16) 1000 64 "sha512") = 64)
    by reflexivity.
  split; [split; assumption|].
  exact (hashPassword_length Fixtures.flat_kdf Fixtures.salt16 "secret" H1 H2).
Defined.

Lemma hashPassword_salt_inj_witness :
  hashPassword Fixtures.flat_kdf Fixtures.salt16 "secret" =
  hashPassword Fixtures.flat_kdf Fixtures.salt16 "other" /\
  Fixtures.salt16 = Fixtures.salt16.
Proof.
  assert (H : hashPassword Fixtures.flat_kdf Fixtures.salt16 "secret" =
              hashPassword Fixtures.flat_kdf Fixtures.salt16 "other")
    by reflexivity.
  split; [exact H|].
  exact (hashPassword_salt_inj Fixtures.flat_kdf _ _ _ _ H).
Defined.

End PasswordFacts.

(* ================================================================== *)
(** ** The bearer token of a request *)

Section TokenFacts.

Variable jwt_verify : string -> option claims.

Lemma split_bearer (t : string) :
  Str.has_char " " t = false ->
  Str.split " " ("Bearer " ++ t) = ["Bearer"; t].
Proof.
  intro H.
  change ("Bearer " ++ t)%string with ("Bearer" ++ String " " t)%string.
  rewrite StrFacts.split_at_first by reflexivity.
  now rewrite (StrFacts.split_absent _ _ H).
Qed.

Lemma startsWith_bearer (t : string) :
  Str.startsWith ("Bearer " ++ t) "Bearer " = true.
Proof. destruct t; reflexivity. Qed.

(** X5.  A header [Bearer t] with a token free of spaces hands exactly [t] to
    [jwt.verify]: [requireAuth] passes the request on with the verified
    claims or answers 401 'Invalid token', and [optionalAuth] passes it on
    with the claims or with null. *)
Theorem bearer_token_is_verified (req : request) (t : string) :
  authorization req = Some ("Bearer " ++ t)%string ->
  Str.has_char " " t = false ->
  requireAuth jwt_verify req =
    match jwt_verify t with
    | Some u => Next (set_user req (Some u))
    | None => Respond (json 401 (PError "Invalid token"))
    end /\
  optionalAuth jwt_verify req = Next (set_user req (jwt_verify t)).
Proof.
  intros Ha Ht. unfold requireAuth, optionalAuth, verify_header.
  rewrite Ha, startsWith_bearer, (split_bearer t Ht). simpl.
  destruct (jwt_verify t); split; reflexivity.
Qed.

(** X6.  [requireAuth] calls [next()] only for a request whose header starts
    with [Bearer ] and whose token [jwt.verify] accepts, and then
    [req.user] is the verified payload; the header is left as it was. *)
Theorem requireAuth_next_only_verified (req req' : request) :
  requireAuth jwt_verify req = Next req' ->
  exists h u,
    authorization req = Some h /\
    Str.startsWith h "Bearer " = true /\
    verify_header jwt_verify h = Some u /\
    user req' = Some u /\
    authorization req' = authorization req.
Proof.
  unfold requireAuth.
  destruct (authorization req) as [h|] eqn:Ha; [|discriminate].
  destruct (Str.startsWith h "Bearer ") eqn:Hs; simpl; [|discriminate].
  destruct (verify_header jwt_verify h) as [u|] eqn:Hv; [|discriminate].
  intro E. injection E as <-. exists h, u. simpl. auto.
Qed.

End TokenFacts.

Lemma bearer_token_is_verified_witness :
  (authorization Samples.with_token = Some ("Bearer " ++ "alice.token")%string /\
   Str.has_char " " "alice.token" = false) /\
  requireAuth Samples.verify_alice Samples.with_token =
    Next (set_user Samples.with_token (Some Samples.alice)).
Proof.
  assert (H1 : authorization Samples.with_token =
               Some ("Bearer " ++ "alice.token")%string) by reflexivity.
  assert (H2 : Str.has_char " " "alice.token" = false) by reflexivity.
  split; [split; assumption|].
  exact (proj1 (bearer_token_is_verified Samples.verify_alice
                  Samples.with_token "alice.token" H1 H2)).
Defined.

Lemma requireAuth_next_only_verified_witness :
  requireAuth Samples.verify_alice Samples.with_token =
    Next (set_user Samples.with_token (Some Samples.alice)) /\
  exists h u,
    authorization Samples.with_token = Some h /\
    Str.startsWith h "Bearer " = true /\
    verify_header Samples.verify_alice h = Some u /\
    user (set_user Samples.with_token (Some Samples.alice)) = Some u /\
    authorization (set_user Samples.with_token (Some Samples.alice)) =
      authorization Samples.with_token.
Proof.
  assert (H : requireAuth Samples.verify_alice Samples.with_token =
              Next (set_user Samples.with_token (Some Samples.alice)))
    by reflexivity.
  split; [exact H|].
  exact (requireAuth_next_only_verified Samples.verify_alice
           Samples.with_token _ H).
Defined.

(* ================================================================== *)
(** ** Settings: what is written is what is read *)

Module SettingsFacts.
Import Settings Queries.

Lemma select_upsert_same (org : string) (s : value) (t : list settings_row) :
  exists rest,
    filter (for_org org) (upsert org s t) =
      {| s_org := org; s_settings := s |} :: rest.
Proof.
  induction t as [|r t [rest IH]]; simpl.
  - unfold for_org. simpl. rewrite String.eqb_refl. now exists [].
  - destruct (String.eqb (s_org r) org) eqn:E; simpl.
    + unfold for_org at 1. simpl. rewrite String.eqb_refl. eauto.
    + unfold for_org at 1. rewrite E. eauto.
Qed.

Lemma select_upsert_other (org org' : string) (s : value)
    (t : list settings_row) :
  org <> org' ->
  filter (for_org org') (upsert org s t) = filter (for_org org') t.
Proof.
  intro N.
  assert (F : for_org org' {| s_org := org; s_settings := s |} = false).
  { unfold for_org. simpl. now apply String.eqb_neq. }
  induction t as [|r t IH]; simpl.
  - now rewrite F.
  - destruct (String.eqb_spec (s_org r) org) as [E|E]; simpl.
    + rewrite F. unfold for_org. rewrite E.
      now replace (String.eqb org org') with false
        by (symmetry; now apply String.eqb_neq).
    + now rewrite IH.
Qed.

Lemma orgs_upsert (org : string) (s : value) (t : list settings_row) :
  map s_org (upsert org s t) =
    if existsb (for_org org) t then map s_org t else map s_org t ++ [org].
Proof.
  induction t as [|r t IH]; simpl; [reflexivity|].
  unfold for_org at 1.
  destruct (String.eqb_spec (s_org r) org) as [E|E]; simpl.
  - now rewrite E.
  - rewrite IH. now destruct (existsb (for_org org) t).
Qed.

Lemma truthy_not_null (v : value) :
  truthy v = true -> v <> VNull /\ v <> VUndefined.
Proof. destruct v; simpl; intro H; split; discriminate. Qed.

(** X7.  After a PUT /api/settings that answered 200, GET /api/settings of the
    same organization returns the document just sent, and the regions and
    volume-tier routes return its two arrays. *)
Theorem put_settings_then_get (db : store) (u : claims) (body : value) :
  status (snd (put_settings db u body)) = 200 ->
  let db' := fst (put_settings db u body) in
  let settings := prop body "settings" in
  get_settings db' u = json 200 (PSettings settings) /\
  get_regions db' u = json 200 (PRegions (prop settings "regions")) /\
  get_volume_tiers db' u =
    json 200 (PVolumeTiers (prop settings "volumeTiers")).
Proof.
  unfold put_settings.
  destruct (truthy (prop body "settings")) eqn:T; simpl; [|discriminate].
  destruct (validateSettings (prop body "settings")) eqn:V; simpl;
    [discriminate|].
  intros _.
  destruct (select_upsert_same (organizationId u) (prop body "settings")
              (pricing_settings db)) as [rest E].
  unfold get_settings, get_regions, get_volume_tiers, settings_or_default,
    select_settings. simpl.
  change (fun r => String.eqb (s_org r) (organizationId u))
    with (for_org (organizationId u)).
  rewrite E. simpl.
  apply SettingsSpec.validateSettings_shape in V. unfold shape_ok in V.
  apply andb_true_iff in V as [V Hr]. apply andb_true_iff in V as [_ Hv].
  split; [reflexivity|].
  destruct (prop body "settings") as [| | | | | |fs] eqn:S;
    try discriminate Hr.
  cbn [prop] in *. split.
  - destruct (assoc "regions" fs); try discriminate Hr. reflexivity.
  - destruct (assoc "volumeTiers" fs); try discriminate Hv. reflexivity.
Qed.

Lemma put_settings_then_get_witness :
  status (snd (put_settings Samples.empty_store Samples.alice
                 (VObj [("settings", getDefaultSettings)]))) = 200 /\
  get_settings
    (fst (put_settings Samples.empty_store Samples.alice
            (VObj [("settings", getDefaultSettings)]))) Samples.alice =
    json 200 (PSettings getDefaultSettings).
Proof.
  assert (H : status (snd (put_settings Samples.empty_store Samples.alice
                 (VObj [("settings", getDefaultSettings)]))) = 200)
    by reflexivity.
  split; [exact H|].
  exact (proj1 (put_settings_then_get Samples.empty_store Samples.alice
                  (VObj [("settings", getDefaultSettings)]) H)).
Defined.

(** X8.  Whatever one organization does with PUT /api/settings or
    POST /api/settings/reset, the three read routes of another
    organization answer as before. *)
Theorem settings_of_other_tenant_unchanged
    (db : store) (u u' : claims) (body : value) :
  organizationId u <> organizationId u' ->
  let after_put := fst (put_settings db u body) in
  let after_reset := fst (reset_settings db u) in
  (get_settings after_put u' = get_settings db u' /\
   get_regions after_put u' = get_regions db u' /\
   get_volume_tiers after_put u' = get_volume_tiers db u') /\
  (get_settings after_reset u' = get_settings db u' /\
   get_regions after_reset u' = get_regions db u' /\
   get_volume_tiers after_reset u' = get_volume_tiers db u').
Proof.
  intro N. simpl.
  assert (R : forall s,
    select_settings
      (with_pricing_settings db
         (upsert (organizationId u) s (pricing_settings db)))
      (organizationId u') = select_settings db (organizationId u')).
  { intro s. unfold select_settings. simpl.
    apply (select_upsert_other _ _ s (pricing_settings db) N). }
  split.
  - unfold put_settings.
    destruct (negb (truthy (prop body "settings"))); simpl; [auto|].
    destruct (validateSettings (prop body "settings")); simpl; [auto|].
    unfold get_settings, get_regions, get_volume_tiers, settings_or_default.
    now rewrite R.
  - unfold reset_settings, get_settings, get_regions, get_volume_tiers,
      settings_or_default. simpl. now rewrite R.
Qed.

Lemma settings_of_other_tenant_unchanged_witness :
  organizationId Samples.bob <> organizationId Samples.alice /\
  get_settings (fst (reset_settings Samples.other_tenant_settings Samples.bob))
    Samples.alice = get_settings Samples.other_tenant_settings Samples.alice.
Proof.
  assert (H : organizationId Samples.bob <> organizationId Samples.alice)
    by discriminate.
  split; [exact H|].
  exact (proj1 (proj2 (settings_of_other_tenant_unchanged
                         Samples.other_tenant_settings Samples.bob
                         Samples.alice VNull H))).
Defined.

(** X9.  The upsert keeps one settings row per organization: if no two rows of
    [pricing_settings] share an organization before a PUT or a reset, none
    do after it. *)
Theorem settings_rows_stay_unique (db : store) (u : claims) (body : value) :
  NoDup (map s_org (pricing_settings db)) ->
  NoDup (map s_org (pricing_settings (fst (put_settings db u body)))) /\
  NoDup (map s_org (pricing_settings (fst (reset_settings db u)))).
Proof.
  intro H.
  assert (U : forall s,
    NoDup (map s_org (upsert (organizationId u) s (pricing_settings db)))).
  { intro s. rewrite orgs_upsert.
    destruct (existsb (for_org (organizationId u)) (pricing_settings db))
      eqn:E; [exact H|].
    apply NoDup_app; repeat split.
    - exact H.
    - constructor; [intros []|constructor].
    - intros x Hx [<-|[]].
      apply in_map_iff in Hx as (r & Hr & Hin).
      assert (T : existsb (for_org (s_org r)) (pricing_settings db) = true).
      { apply existsb_exists. exists r. split; [exact Hin|].
        unfold for_org. apply String.eqb_refl. }
      rewrite Hr in T. rewrite E in T. discriminate. }
  split.
  - unfold put_settings.
    destruct (negb (truthy (prop body "settings"))); simpl; [exact H|].
    destruct (validateSettings (prop body "settings")); simpl;
      [exact H|apply U].
  - apply U.
Qed.

Lemma settings_rows_stay_unique_witness :
  NoDup (map s_org (pricing_settings Samples.other_tenant_settings)) /\
  NoDup (map s_org (pricing_settings
           (fst (reset_settings Samples.other_tenant_settings
                   Samples.alice)))).
Proof.
  assert (H : NoDup (map s_org
                (pricing_settings Samples.other_tenant_settings))).
  { simpl. constructor; [intros []|constructor]. }
  split; [exact H|].
  exact (proj2 (settings_rows_stay_unique Samples.other_tenant_settings
                  Samples.alice VNull H)).
Defined.

(** X10.  POST /api/settings/reset does what a PUT of the default document does,
    and a GET after it returns the default document, whatever was stored
    before. *)
Theorem reset_settings_then_get (db : store) (u : claims) :
  reset_settings db u =
    put_settings db u (VObj [("settings", getDefaultSettings)]) /\
  get_settings (fst (reset_settings db u)) u =
    json 200 (PSettings getDefaultSettings).
Proof.
  split; [reflexivity|].
  destruct (select_upsert_same (organizationId u) getDefaultSettings
              (pricing_settings db)) as [rest E].
  unfold get_settings, select_settings, reset_settings.
  cbn [fst pricing_settings with_pricing_settings].
  change (fun r => String.eqb (s_org r) (organizationId u))
    with (for_org (organizationId u)).
  now rewrite E.
Qed.

End SettingsFacts.

(* ================================================================== *)
(** ** Customers *)

Module CustomersFacts.
Import Customers Queries.

Lemma owned_row_of (id org : string) (body : value) :
  owned id org (row_of id org body) = true.
Proof. unfold owned. simpl. now rewrite !String.eqb_refl. Qed.

Lemma owned_org (id org : string) (r : customer_row) :
  owned id org r = true -> c_org r = org.
Proof.
  unfold owned. intro H. apply andb_true_iff in H as [_ H].
  now apply String.eqb_eq.
Qed.

Lemma customer_fresh_not_owned (db : store) (id org : string) :
  (forall c, In c (customers db) -> c_id c <> id) ->
  filter (owned id org) (customers db) = [].
Proof.
  intro H. apply QuotesSpec.filter_none. intros c Hc. unfold owned.
  destruct (String.eqb_spec (c_id c) id) as [E|]; [|reflexivity].
  now destruct (H c Hc).
Qed.

(** X11.  After a POST /api/customers that answered 201 for a body whose
    fields are strings within the bounds of their columns or absent, GET
    /api/customers/:id under the new uuid returns to the same organization
    the row POST answered with: it carries the new id and the caller's
    organization, and every field the body gave as a string. *)
Theorem post_customer_then_get
    (db : store) (u : claims) (id : string) (body : value) :
  status (snd (post_customer db u id body)) = 201 ->
  Columns.customer_fits body = true ->
  Uuid.is_uuid id = true ->
  (forall c, In c (customers db) -> c_id c <> id) ->
  exists row,
    snd (post_customer db u id body) = json 201 (PCustomer row) /\
    get_customer (fst (post_customer db u id body)) u id =
      json 200 (PCustomer row) /\
    c_id row = id /\ c_org row = organizationId u /\
    (forall s, prop body "name" = VStr s -> c_name row = VStr s) /\
    (forall s, prop body "type" = VStr s -> c_type row = VStr s) /\
    (forall s, prop body "regionId" = VStr s -> c_region_id row = VStr s) /\
    (forall s, prop body "address" = VStr s -> c_address row = VStr s) /\
    (forall s, prop body "contactEmail" = VStr s ->
               c_contact_email row = VStr s) /\
    (forall s, prop body "contactPhone" = VStr s ->
               c_contact_phone row = VStr s) /\
    (forall s, prop body "notes" = VStr s -> c_notes row = VStr s).
Proof.
  intros Hs _ _ Hf. unfold post_customer in *.
  destruct (negb (truthy (prop body "name"))); [discriminate Hs|].
  exists (row_of id (organizationId u) body). simpl.
  split; [reflexivity|]. split; [|repeat split; auto].
  unfold get_customer. simpl.
  rewrite filter_app, (customer_fresh_not_owned db id _ Hf). simpl.
  now rewrite owned_row_of.
Qed.

Lemma post_customer_then_get_witness :
  (status (snd (post_customer Samples.empty_store Samples.alice
                  Fixtures.customer_1 Fixtures.food_bank_body)) = 201 /\
   Columns.customer_fits Fixtures.food_bank_body = true /\
   Uuid.is_uuid Fixtures.customer_1 = true /\
   (forall c, In c (customers Samples.empty_store) ->
              c_id c <> Fixtures.customer_1)) /\
  exists row,
    get_customer
      (fst (post_customer Samples.empty_store Samples.alice
              Fixtures.customer_1 Fixtures.food_bank_body))
      Samples.alice Fixtures.customer_1 = json 200 (PCustomer row) /\
    c_org row = Samples.org_a /\
    c_name row = VStr "Alameda Food Bank".
Proof.
  assert (H1 : status (snd (post_customer Samples.empty_store Samples.alice
                  Fixtures.customer_1 Fixtures.food_bank_body)) = 201)
    by reflexivity.
  assert (H2 : Columns.customer_fits Fixtures.food_bank_body = true)
    by reflexivity.
  assert (H3 : Uuid.is_uuid Fixtures.customer_1 = true) by reflexivity.
  assert (H4 : forall c, In c (customers Samples.empty_store) ->
                         c_id c <> Fixtures.customer_1)
    by (intros c []).
  split; [auto|].
  destruct (post_customer_then_get Samples.empty_store Samples.alice
              Fixtures.customer_1 Fixtures.food_bank_body H1 H2 H3 H4)
    as (row & _ & G & _ & O & N & _).
  exists row. split; [exact G|]. split; [exact O|].
  exact (N "Alameda Food Bank" eq_refl).
Defined.

(** Reads that select on one organization see the same rows whatever
    another organization creates, updates or deletes. *)
Lemma reads_unchanged (db : store) (u u' : claims) (id : string)
    (body : value) (P : customer_row -> bool) :
  organizationId u <> organizationId u' ->
  (forall r, P r = true -> c_org r = organizationId u) ->
  filter P (customers (fst (post_customer db u' id body))) =
    filter P (customers db) /\
  filter P (customers (fst (put_customer db u' id body))) =
    filter P (customers db) /\
  filter P (customers (fst (delete_customer db u' id))) =
    filter P (customers db).
Proof.
  intros N HP.
  assert (Pnew : forall r, c_org r = organizationId u' -> P r = false).
  { intros r Hr. destruct (P r) eqn:E; [|reflexivity].
    apply HP in E. destruct N. congruence. }
  assert (Pown : forall r, owned id (organizationId u') r = true ->
                           P r = false).
  { intros r Hr. apply Pnew. now apply owned_org in Hr. }
  split; [|split].
  - unfold post_customer.
    destruct (negb (truthy (prop body "name"))); simpl; [reflexivity|].
    rewrite filter_app. simpl. rewrite Pnew by reflexivity.
    apply app_nil_r.
  - unfold put_customer.
    destruct (filter (owned id (organizationId u')) (customers db))
      as [|x0 xs0]; simpl; [reflexivity|].
    destruct (absent (prop body "name")); simpl; [reflexivity|].
    induction (customers db) as [|r rs IH]; simpl; [reflexivity|].
    destruct (owned id (organizationId u') r) eqn:O.
    + rewrite (Pnew (row_of id (organizationId u') body)) by reflexivity.
      now rewrite (Pown r O).
    + now rewrite IH.
  - unfold delete_customer.
    destruct (filter (owned id (organizationId u')) (customers db))
      as [|x0 xs0]; simpl; [reflexivity|].
    induction (customers db) as [|r rs IH]; simpl; [reflexivity|].
    destruct (owned id (organizationId u') r) eqn:O; simpl.
    + now rewrite (Pown r O).
    + now rewrite IH.
Qed.

(** X12.  What one organization creates, updates or deletes under
    /api/customers never shows in the answers another organization gets
    from GET /api/customers and GET /api/customers/:id. *)
Theorem customers_of_other_tenant_unchanged
    (db : store) (u u' : claims) (id id' : string) (body : value) :
  organizationId u <> organizationId u' ->
  (list_customers (fst (post_customer db u' id body)) u = list_customers db u /\
   get_customer (fst (post_customer db u' id body)) u id' =
     get_customer db u id') /\
  (list_customers (fst (put_customer db u' id body)) u = list_customers db u /\
   get_customer (fst (put_customer db u' id body)) u id' =
     get_customer db u id') /\
  (list_customers (fst (delete_customer db u' id)) u = list_customers db u /\
   get_customer (fst (delete_customer db u' id)) u id' =
     get_customer db u id').
Proof.
  intro N.
  destruct (reads_unchanged db u u' id body
              (fun r => String.eqb (c_org r) (organizationId u)) N)
    as (L1 & L2 & L3).
  { intros r Hr. now apply String.eqb_eq. }
  destruct (reads_unchanged db u u' id body
              (owned id' (organizationId u)) N) as (G1 & G2 & G3).
  { intros r. apply owned_org. }
  unfold list_customers, get_customer.
  rewrite L1, L2, L3, G1, G2, G3. repeat split; reflexivity.
Qed.

Lemma customers_of_other_tenant_unchanged_witness :
  organizationId Samples.alice <> organizationId Samples.bob /\
  delete_customer Fixtures.two_tenants Samples.bob Fixtures.customer_2 =
    (with_quotes (with_customers Fixtures.two_tenants [Fixtures.food_bank])
       (quotes Fixtures.two_tenants),
     json 200 PSuccess) /\
  list_customers
    (fst (delete_customer Fixtures.two_tenants Samples.bob
            Fixtures.customer_2))
    Samples.alice = list_customers Fixtures.two_tenants Samples.alice /\
  list_customers Fixtures.two_tenants Samples.alice =
    json 200 (PCustomers [Fixtures.food_bank]).
Proof.
  assert (H : organizationId Samples.alice <> organizationId Samples.bob)
    by discriminate.
  split; [exact H|]. split; [reflexivity|]. split; [|reflexivity].
  exact (proj1 (proj2 (proj2 (customers_of_other_tenant_unchanged
           Fixtures.two_tenants Samples.alice Samples.bob
           Fixtures.customer_2 Fixtures.customer_1 VNull H)))).
Defined.

Lemma unlinked (id : string) (q : quote_row) :
  q_customer_id (unlink_customer id q) <> VStr id /\
  q_id (unlink_customer id q) = q_id q /\
  q_status (unlink_customer id q) = q_status q.
Proof.
  unfold unlink_customer.
  destruct (q_customer_id q) as [| | | |c| |] eqn:E;
    try (rewrite E; repeat split; discriminate).
  destruct (String.eqb_spec c id) as [->|N]; simpl.
  - repeat split. discriminate.
  - rewrite E. repeat split. congruence.
Qed.

(** X13.  Deleting one's own customer answers 200; afterwards the customer is
    not found, no quote refers to it any more, and every quote is still
    there with its status. *)
Theorem delete_customer_then_gone
    (db : store) (u : claims) (id : string) (c : customer_row) :
  In c (customers db) -> c_id c = id -> c_org c = organizationId u ->
  let db' := fst (delete_customer db u id) in
  snd (delete_customer db u id) = json 200 PSuccess /\
  get_customer db' u id = json 404 (PError "Customer not found") /\
  (forall q, In q (quotes db') -> q_customer_id q <> VStr id) /\
  map q_id (quotes db') = map q_id (quotes db) /\
  map q_status (quotes db') = map q_status (quotes db).
Proof.
  intros Hin Hid Horg.
  assert (Ho : owned id (organizationId u) c = true).
  { unfold owned. now rewrite Hid, Horg, !String.eqb_refl. }
  unfold delete_customer.
  destruct (filter (owned id (organizationId u)) (customers db)) eqn:E.
  { now destruct (QuotesSpec.filter_some _ _ _ Hin Ho). }
  simpl. split; [reflexivity|]. split; [|split; [|split]].
  - unfold get_customer. simpl.
    rewrite QuotesSpec.filter_none; [reflexivity|].
    intros x Hx. apply filter_In in Hx as [_ Hx].
    now apply negb_true_iff in Hx.
  - intros q Hq. apply in_map_iff in Hq as (q0 & <- & _).
    apply unlinked.
  - rewrite map_map. apply map_ext. intro q. apply unlinked.
  - rewrite map_map. apply map_ext. intro q. apply unlinked.
Qed.

Lemma delete_customer_then_gone_witness :
  (In Fixtures.food_bank (customers Fixtures.shop) /\
   c_id Fixtures.food_bank = Fixtures.customer_1 /\
   c_org Fixtures.food_bank = organizationId Samples.alice) /\
  get_customer
    (fst (delete_customer Fixtures.shop Samples.alice Fixtures.customer_1))
    Samples.alice Fixtures.customer_1 =
  json 404 (PError "Customer not found").
Proof.
  assert (H1 : In Fixtures.food_bank (customers Fixtures.shop))
    by (now left).
  assert (H2 : c_id Fixtures.food_bank = Fixtures.customer_1)
    by reflexivity.
  assert (H3 : c_org Fixtures.food_bank = organizationId Samples.alice)
    by reflexivity.
  split; [auto|].
  exact (proj1 (proj2 (delete_customer_then_gone Fixtures.shop Samples.alice
                         Fixtures.customer_1 Fixtures.food_bank H1 H2 H3))).
Defined.

End CustomersFacts.

(* ================================================================== *)
(** ** Products *)

Module CatalogFacts.
Import Products Catalog.

Lemma product_owned_spec (id org : string) (r : product_row) :
  owned_product id org r = true <-> p_id r = id /\ p_org r = org.
Proof.
  unfold owned_product. rewrite andb_true_iff, !String.eqb_eq. reflexivity.
Qed.

Lemma get_product_filter (db : store) (u : claims) (id : string) :
  get_product db u id =
    match filter (owned_product id (organizationId u)) (products db) with
    | [] => json 404 (PError "Product not found")
    | r :: _ => json 200 (PProduct r)
    end.
Proof. reflexivity. Qed.

Lemma product_fresh_not_owned (db : store) (id org : string) :
  (forall r, In r (products db) -> p_id r <> id) ->
  filter (owned_product id org) (products db) = [].
Proof.
  intro H. apply QuotesSpec.filter_none. intros r Hr.
  destruct (owned_product id org r) eqn:E; [|reflexivity].
  apply product_owned_spec in E as [E _]. now destruct (H r Hr).
Qed.

Lemma or_else_false_not_null (v : value) :
  sql_null (or_else v (VBool false)) = false.
Proof. unfold or_else. destruct v; simpl; try reflexivity;
  match goal with |- context [if ?c then _ else _] => destruct c end;
  reflexivity.
Qed.

(** X14.  After a POST /api/products that answered 201, GET
    /api/products/:id under the new uuid returns to the same organization
    the row POST answered with.  The row carries the new id and the
    caller's organization, its two flags are never NULL (a falsy flag is
    stored as false), and it is available unless the body said
    [available: false]. *)
Theorem post_product_then_get
    (db : store) (u : claims) (id : string) (body : value) :
  status (snd (post_product db u id body)) = 201 ->
  Uuid.is_uuid id = true ->
  (forall r, In r (products db) -> p_id r <> id) ->
  exists row,
    snd (post_product db u id body) = json 201 (PProduct row) /\
    get_product (fst (post_product db u id body)) u id =
      json 200 (PProduct row) /\
    p_id row = id /\ p_org row = organizationId u /\
    sql_null (p_bipoc row) = false /\
    sql_null (p_gap_certified row) = false /\
    p_available row = VBool (not_false (prop body "available")).
Proof.
  intros Hs _ Hf. unfold post_product in *.
  destruct (negb (truthy (prop body "name")) ||
            negb (truthy (prop body "costPerCase"))); [discriminate Hs|].
  simpl. eexists. split; [reflexivity|]. split.
  - rewrite get_product_filter. simpl.
    rewrite filter_app, (product_fresh_not_owned db id _ Hf). simpl.
    unfold owned_product at 1. simpl. now rewrite !String.eqb_refl.
  - simpl. repeat split; apply or_else_false_not_null.
Qed.

Lemma post_product_then_get_witness :
  (status (snd (post_product Samples.empty_store Samples.alice
                  Samples.product_1 Fixtures.apples_body)) = 201 /\
   Uuid.is_uuid Samples.product_1 = true /\
   (forall r, In r (products Samples.empty_store) ->
              p_id r <> Samples.product_1)) /\
  exists row,
    get_product
      (fst (post_product Samples.empty_store Samples.alice
              Samples.product_1 Fixtures.apples_body))
      Samples.alice Samples.product_1 = json 200 (PProduct row) /\
    p_org row = Samples.org_a /\
    p_gap_certified row = VBool false.
Proof.
  assert (H1 : status (snd (post_product Samples.empty_store Samples.alice
                  Samples.product_1 Fixtures.apples_body)) = 201)
    by reflexivity.
  assert (H2 : Uuid.is_uuid Samples.product_1 = true) by reflexivity.
  assert (H3 : forall r, In r (products Samples.empty_store) ->
                         p_id r <> Samples.product_1) by (intros r []).
  split; [auto|].
  destruct (post_product_then_get Samples.empty_store Samples.alice
              Samples.product_1 Fixtures.apples_body H1 H2 H3)
    as (row & P & G & _ & O & _).
  exists row. split; [exact G|]. split; [exact O|].
  injection P as <-. reflexivity.
Defined.

(** X15.  After a PUT /api/products/:id on one's own product that
    answered 200, GET /api/products/:id returns the row PUT answered with,
    under the same id and organization; a flag the body leaves out is NULL
    in it, where creation stores false. *)
Theorem put_product_then_get
    (db : store) (u : claims) (id : string) (body : value) (r : product_row) :
  In r (products db) -> p_id r = id -> p_org r = organizationId u ->
  status (snd (put_product db u id body)) = 200 ->
  exists row,
    snd (put_product db u id body) = json 200 (PProduct row) /\
    get_product (fst (put_product db u id body)) u id =
      json 200 (PProduct row) /\
    p_id row = id /\ p_org row = organizationId u /\
    (sql_null (prop body "bipoc") = true -> sql_null (p_bipoc row) = true) /\
    (sql_null (prop body "gapCertified") = true ->
       sql_null (p_gap_certified row) = true) /\
    (sql_null (prop body "available") = true ->
       sql_null (p_available row) = true).
Proof.
  intros Hin Hid Horg Hs.
  assert (Ho : owned_product id (organizationId u) r = true)
    by (apply product_owned_spec; auto).
  unfold put_product in *.
  destruct (filter (owned_product id (organizationId u)) (products db))
    as [|x0 xs0] eqn:E.
  { now destruct (QuotesSpec.filter_some _ _ _ Hin Ho). }
  destruct (sql_null (prop body "name") || sql_null (prop body "costPerCase"));
    [discriminate Hs|].
  simpl. eexists. split; [reflexivity|]. split; [|repeat split; auto].
  rewrite get_product_filter. simpl.
  clear E Hs. induction (products db) as [|a l IH]; [destruct Hin|].
  simpl. destruct (owned_product id (organizationId u) a) eqn:Oa.
  - unfold owned_product at 1. simpl. now rewrite !String.eqb_refl.
  - rewrite Oa. destruct Hin as [->|Hin]; [congruence|]. now apply IH.
Qed.

Lemma put_product_then_get_witness :
  (In (Fixtures.product_row_of Fixtures.product_3) (products Fixtures.shop) /\
   status (snd (put_product Fixtures.shop Samples.alice Fixtures.product_3
                  Fixtures.apples_body)) = 200) /\
  exists row,
    get_product
      (fst (put_product Fixtures.shop Samples.alice Fixtures.product_3
              Fixtures.apples_body))
      Samples.alice Fixtures.product_3 = json 200 (PProduct row) /\
    sql_null (p_gap_certified row) = true.
Proof.
  assert (H1 : In (Fixtures.product_row_of Fixtures.product_3)
                  (products Fixtures.shop)) by (right; now left).
  assert (H2 : status (snd (put_product Fixtures.shop Samples.alice
                  Fixtures.product_3 Fixtures.apples_body)) = 200)
    by reflexivity.
  split; [auto|].
  destruct (put_product_then_get Fixtures.shop Samples.alice
              Fixtures.product_3 Fixtures.apples_body
              (Fixtures.product_row_of Fixtures.product_3)
              H1 eq_refl eq_refl H2)
    as (row & _ & G & _ & _ & _ & Gc & _).
  exists row. split; [exact G|exact (Gc eq_refl)].
Defined.

(** X16.  A product that a quote line names cannot be deleted: DELETE
    /api/products/:id by its owner answers 500 and changes nothing. *)
Theorem delete_product_on_a_quote
    (db : store) (u : claims) (id : string) (r : product_row) (i : item_row) :
  In r (products db) -> p_id r = id -> p_org r = organizationId u ->
  In i (quote_items db) -> qi_product_id i = VStr id ->
  delete_product db u id = (db, json 500 (PError "Failed to delete product")).
Proof.
  intros Hin Hid Horg Hi Hp.
  assert (Ho : owned_product id (organizationId u) r = true)
    by (apply product_owned_spec; auto).
  unfold delete_product.
  destruct (filter (owned_product id (organizationId u)) (products db)) eqn:E.
  { now destruct (QuotesSpec.filter_some _ _ _ Hin Ho). }
  replace (referenced db id) with true; [reflexivity|].
  symmetry. apply existsb_exists. exists i. split; [exact Hi|].
  rewrite Hp. apply String.eqb_refl.
Qed.

Lemma delete_product_on_a_quote_witness :
  (In (Fixtures.product_row_of Samples.product_1) (products Fixtures.shop) /\
   In (Samples.line_of Samples.quote_1 Samples.product_1 100%Q)
      (quote_items Fixtures.shop)) /\
  delete_product Fixtures.shop Samples.alice Samples.product_1 =
    (Fixtures.shop, json 500 (PError "Failed to delete product")).
Proof.
  assert (H1 : In (Fixtures.product_row_of Samples.product_1)
                  (products Fixtures.shop)) by (now left).
  assert (H2 : In (Samples.line_of Samples.quote_1 Samples.product_1 100%Q)
                  (quote_items Fixtures.shop)) by (now left).
  split; [auto|].
  exact (delete_product_on_a_quote Fixtures.shop Samples.alice
           Samples.product_1 _ _ H1 eq_refl eq_refl H2 eq_refl).
Defined.

(** X17.  A product of the caller that no quote line names is deleted: the
    answer is 200, a GET then finds nothing, every other product row is
    still there, and no other table changes. *)
Theorem delete_product_then_gone
    (db : store) (u : claims) (id : string) (r : product_row) :
  In r (products db) -> p_id r = id -> p_org r = organizationId u ->
  referenced db id = false ->
  let db' := fst (delete_product db u id) in
  snd (delete_product db u id) = json 200 PSuccess /\
  get_product db' u id = json 404 (PError "Product not found") /\
  (forall x, In x (products db) -> owned_product id (organizationId u) x = false ->
             In x (products db')) /\
  customers db' = customers db /\ quotes db' = quotes db /\
  quote_items db' = quote_items db /\
  pricing_settings db' = pricing_settings db.
Proof.
  intros Hin Hid Horg Hr.
  assert (Ho : owned_product id (organizationId u) r = true)
    by (apply product_owned_spec; auto).
  unfold delete_product.
  destruct (filter (owned_product id (organizationId u)) (products db)) eqn:E.
  { now destruct (QuotesSpec.filter_some _ _ _ Hin Ho). }
  rewrite Hr. simpl. split; [reflexivity|]. split; [|split].
  - rewrite get_product_filter. simpl.
    rewrite QuotesSpec.filter_none; [reflexivity|].
    intros x Hx. apply filter_In in Hx as [_ Hx].
    now apply negb_true_iff in Hx.
  - intros x Hx Hn. apply filter_In. now rewrite Hn.
  - repeat split.
Qed.

Lemma delete_product_then_gone_witness :
  (In (Fixtures.product_row_of Fixtures.product_3) (products Fixtures.shop) /\
   referenced Fixtures.shop Fixtures.product_3 = false) /\
  get_product
    (fst (delete_product Fixtures.shop Samples.alice Fixtures.product_3))
    Samples.alice Fixtures.product_3 =
  json 404 (PError "Product not found").
Proof.
  assert (H1 : In (Fixtures.product_row_of Fixtures.product_3)
                  (products Fixtures.shop)) by (right; now left).
  assert (H2 : referenced Fixtures.shop Fixtures.product_3 = false)
    by reflexivity.
  split; [auto|].
  exact (proj1 (proj2 (delete_product_then_gone Fixtures.shop Samples.alice
                         Fixtures.product_3 _ H1 eq_refl eq_refl H2))).
Defined.

End CatalogFacts.

(* ================================================================== *)
(** ** Quotes *)

Module QuotesFacts.
Import Quotes.

Lemma quote_owned_spec (id org : string) (q : quote_row) :
  owned id org q = true <-> q_id q = id /\ q_org q = org.
Proof.
  unfold owned. rewrite andb_true_iff, !String.eqb_eq. reflexivity.
Qed.

Lemma quote_fresh_not_owned (db : store) (id org : string) :
  (forall q, In q (quotes db) -> q_id q <> id) ->
  filter (owned id org) (quotes db) = [].
Proof.
  intro H. apply QuotesSpec.filter_none. intros q Hq.
  destruct (owned id org q) eqn:E; [|reflexivity].
  apply quote_owned_spec in E as [E _]. now destruct (H q Hq).
Qed.

Lemma of_quote_item_row_of (id : string) (xs : list item_body) :
  filter (of_quote id) (map (item_row_of id) xs) = map (item_row_of id) xs.
Proof.
  induction xs as [|x xs IH]; simpl; [reflexivity|].
  unfold of_quote at 1. simpl. now rewrite String.eqb_refl, IH.
Qed.

Lemma of_other_quote_item_row_of (id id' : string) (xs : list item_body) :
  id' <> id ->
  filter (of_quote id') (map (item_row_of id) xs) = [].
Proof.
  intro N. apply QuotesSpec.filter_none. intros i Hi.
  apply in_map_iff in Hi as (x & <- & _). unfold of_quote. simpl.
  apply String.eqb_neq. congruence.
Qed.

Lemma of_quote_removed (id : string) (l : list item_row) :
  filter (of_quote id) (filter (fun i => negb (of_quote id i)) l) = [].
Proof.
  apply QuotesSpec.filter_none. intros i Hi.
  apply filter_In in Hi as [_ Hi]. now apply negb_true_iff in Hi.
Qed.

Lemma of_other_quote_kept (id id' : string) (l : list item_row) :
  id' <> id ->
  filter (of_quote id') (filter (fun i => negb (of_quote id i)) l) =
  filter (of_quote id') l.
Proof.
  intro N. induction l as [|i l IH]; simpl; [reflexivity|].
  destruct (of_quote id i) eqn:E; simpl.
  - unfold of_quote in E. apply String.eqb_eq in E.
    replace (of_quote id' i) with false; [exact IH|].
    symmetry. unfold of_quote. apply String.eqb_neq. congruence.
  - now rewrite IH.
Qed.

Lemma all_of_quote (id : string) (xs : list item_body) :
  Forall (fun i => qi_quote_id i = id) (map (item_row_of id) xs).
Proof. induction xs; simpl; constructor; auto. Qed.

Lemma all_of_quote_filter (id : string) (l : list item_row) :
  Forall (fun i => qi_quote_id i = id) (filter (of_quote id) l).
Proof.
  apply Forall_forall. intros i Hi. apply filter_In in Hi as [_ Hi].
  now apply String.eqb_eq in Hi.
Qed.

(** X18.  After a POST /api/quotes that answered 201, GET /api/quotes/:id
    under the new uuid answers 200 to the same organization with the row
    POST answered with: a draft owned by the caller's organization and
    created by the caller, with one line of that quote for each item of
    the body. *)
Theorem post_quote_then_get
    (db : store) (u : claims) (id : string) (b : quote_body) :
  status (snd (post_quote db u id b)) = 201 ->
  Uuid.is_uuid id = true ->
  (forall q, In q (quotes db) -> q_id q <> id) ->
  (forall i, In i (quote_items db) -> qi_quote_id i <> id) ->
  exists row lines,
    snd (post_quote db u id b) = json 201 (PQuoteRow row) /\
    get_quote (fst (post_quote db u id b)) u id =
      json 200 (PQuote row lines) /\
    q_id row = id /\ q_org row = organizationId u /\
    q_status row = "draft" /\ q_created_by row = userId u /\
    List.length lines =
      List.length (match items b with Some xs => xs | None => [] end) /\
    Forall (fun i => qi_quote_id i = id) lines.
Proof.
  intros _ _ Hq Hi. unfold post_quote.
  eexists. exists (map (item_row_of id)
                     (match items b with Some xs => xs | None => [] end)).
  split; [reflexivity|].
  split; [|repeat split; [apply length_map|apply all_of_quote]].
  unfold get_quote. simpl.
  rewrite filter_app, (quote_fresh_not_owned db id _ Hq). simpl.
  unfold owned at 1. simpl. rewrite !String.eqb_refl. simpl.
  rewrite filter_app, of_quote_item_row_of.
  rewrite QuotesSpec.filter_none; [reflexivity|].
  intros i Hin. unfold of_quote. apply String.eqb_neq. now apply Hi.
Qed.

Lemma post_quote_then_get_witness :
  (status (snd (post_quote Fixtures.shop Samples.alice Fixtures.quote_2
                  Fixtures.two_lines_body)) = 201 /\
   Uuid.is_uuid Fixtures.quote_2 = true /\
   (forall q, In q (quotes Fixtures.shop) -> q_id q <> Fixtures.quote_2) /\
   (forall i, In i (quote_items Fixtures.shop) ->
              qi_quote_id i <> Fixtures.quote_2)) /\
  exists row lines,
    get_quote
      (fst (post_quote Fixtures.shop Samples.alice Fixtures.quote_2
              Fixtures.two_lines_body))
      Samples.alice Fixtures.quote_2 = json 200 (PQuote row lines) /\
    q_status row = "draft" /\ List.length lines = 2.
Proof.
  assert (H0 : status (snd (post_quote Fixtures.shop Samples.alice
                  Fixtures.quote_2 Fixtures.two_lines_body)) = 201)
    by reflexivity.
  assert (H1 : forall q, In q (quotes Fixtures.shop) ->
                         q_id q <> Fixtures.quote_2).
  { intros q [<-|[]]. discriminate. }
  assert (H2 : forall i, In i (quote_items Fixtures.shop) ->
                         qi_quote_id i <> Fixtures.quote_2).
  { intros i [<-|[]]. discriminate. }
  assert (H3 : Uuid.is_uuid Fixtures.quote_2 = true) by reflexivity.
  split; [auto|].
  destruct (post_quote_then_get Fixtures.shop Samples.alice
              Fixtures.quote_2 Fixtures.two_lines_body H0 H3 H1 H2)
    as (row & lines & _ & G & _ & _ & S & _ & L & _).
  exists row, lines. split; [exact G|]. split; [exact S|exact L].
Defined.

Lemma owned_after_update (id org : string) (b : quote_body)
    (l : list quote_row) :
  filter (owned id org)
    (map (fun q => if String.eqb (q_id q) id then set_header q b else q) l) =
  map (fun q => set_header q b) (filter (owned id org) l).
Proof.
  induction l as [|q l IH]; [reflexivity|].
  cbn [map filter]. rewrite IH.
  destruct (String.eqb (q_id q) id) eqn:E.
  - replace (owned id org (set_header q b)) with (owned id org q)
      by reflexivity.
    now destruct (owned id org q).
  - replace (owned id org q) with false; [reflexivity|].
    unfold owned. now rewrite E.
Qed.

(** X19.  After a PUT /api/quotes/:id on one's own quote that answered
    200, GET /api/quotes/:id answers 200 with that quote under the same
    id, organization, status and creator.  With [items] in the body it has
    one line of that quote for each item of the body; without, it has the
    lines it had. *)
Theorem put_quote_then_get
    (db : store) (u : claims) (id : string) (b : quote_body) (q : quote_row) :
  In q (quotes db) -> q_id q = id -> q_org q = organizationId u ->
  status (snd (put_quote db u id b)) = 200 ->
  exists q0 row lines,
    In q0 (quotes db) /\ q_id q0 = id /\ q_org q0 = organizationId u /\
    get_quote (fst (put_quote db u id b)) u id =
      json 200 (PQuote row lines) /\
    q_id row = id /\ q_org row = organizationId u /\
    q_status row = q_status q0 /\ q_created_by row = q_created_by q0 /\
    Forall (fun i => qi_quote_id i = id) lines /\
    (items b = None -> lines = filter (of_quote id) (quote_items db)) /\
    (forall xs, items b = Some xs -> List.length lines = List.length xs).
Proof.
  intros Hin Hid Horg _.
  assert (Ho : owned id (organizationId u) q = true)
    by (apply quote_owned_spec; auto).
  unfold put_quote.
  destruct (filter (owned id (organizationId u)) (quotes db))
    as [|q0 rest] eqn:E.
  { now destruct (QuotesSpec.filter_some _ _ _ Hin Ho). }
  assert (H0 : In q0 (filter (owned id (organizationId u)) (quotes db)))
    by (rewrite E; now left).
  apply filter_In in H0 as [H0 O0]. apply quote_owned_spec in O0 as [I0 G0].
  exists q0, (set_header q0 b).
  exists (match items b with
          | Some xs => map (item_row_of id) xs
          | None => filter (of_quote id) (quote_items db)
          end).
  repeat split; try assumption.
  - unfold get_quote.
    destruct (items b) as [xs|]; cbn [fst quotes quote_items with_quotes
      with_quote_items]; rewrite owned_after_update, E; cbn [map].
    + now rewrite filter_app, of_quote_removed, of_quote_item_row_of.
    + reflexivity.
  - destruct (items b); [apply all_of_quote|apply all_of_quote_filter].
  - intro N. now rewrite N.
  - intros xs N. rewrite N. apply length_map.
Qed.

Lemma put_quote_then_get_witness :
  (In Fixtures.draft_quote (quotes Fixtures.shop) /\
   q_id Fixtures.draft_quote = Samples.quote_1 /\
   q_org Fixtures.draft_quote = organizationId Samples.alice /\
   status (snd (put_quote Fixtures.shop Samples.alice Samples.quote_1
                  Fixtures.two_lines_body)) = 200) /\
  exists row lines,
    get_quote
      (fst (put_quote Fixtures.shop Samples.alice Samples.quote_1
              Fixtures.two_lines_body))
      Samples.alice Samples.quote_1 = json 200 (PQuote row lines) /\
    q_status row = "draft" /\ List.length lines = 2.
Proof.
  assert (H1 : In Fixtures.draft_quote (quotes Fixtures.shop)) by (now left).
  assert (H2 : status (snd (put_quote Fixtures.shop Samples.alice
                  Samples.quote_1 Fixtures.two_lines_body)) = 200)
    by reflexivity.
  split; [auto|].
  destruct (put_quote_then_get Fixtures.shop Samples.alice
              Samples.quote_1 Fixtures.two_lines_body
              Fixtures.draft_quote H1 eq_refl eq_refl H2)
    as (q0 & row & lines & Hq0 & _ & _ & G & _ & _ & S & _ & _ & _ & L).
  exists row, lines. split; [exact G|]. split.
  - rewrite S. destruct Hq0 as [<-|[]]. reflexivity.
  - exact (L _ eq_refl).
Defined.

(** X20.  DELETE /api/quotes/:id on one's own quote answers 200; afterwards the
    quote is not found, none of its lines is left, and the quotes with
    another id are all still there. *)
Theorem delete_quote_then_gone
    (db : store) (u : claims) (id : string) (q : quote_row) :
  In q (quotes db) -> q_id q = id -> q_org q = organizationId u ->
  let db' := fst (delete_quote db u id) in
  snd (delete_quote db u id) = json 200 PSuccess /\
  get_quote db' u id = json 404 (PError "Quote not found") /\
  filter (of_quote id) (quote_items db') = [] /\
  (forall r, In r (quotes db) -> q_id r <> id -> In r (quotes db')).
Proof.
  intros Hin Hid Horg.
  assert (Ho : owned id (organizationId u) q = true)
    by (apply quote_owned_spec; auto).
  unfold delete_quote. simpl.
  destruct (filter (owned id (organizationId u)) (quotes db)) eqn:E.
  { now destruct (QuotesSpec.filter_some _ _ _ Hin Ho). }
  simpl. split; [reflexivity|]. split; [|split].
  - unfold get_quote. simpl.
    rewrite QuotesSpec.filter_none; [reflexivity|].
    intros x Hx. apply filter_In in Hx as [_ Hx].
    now apply negb_true_iff in Hx.
  - apply of_quote_removed.
  - intros r Hr Hn. apply filter_In. split; [exact Hr|].
    apply negb_true_iff.
    destruct (owned id (organizationId u) r) eqn:O; [|reflexivity].
    apply quote_owned_spec in O as [O _]. now destruct Hn.
Qed.

Lemma delete_quote_then_gone_witness :
  (In Fixtures.draft_quote (quotes Fixtures.shop) /\
   q_id Fixtures.draft_quote = Samples.quote_1 /\
   q_org Fixtures.draft_quote = organizationId Samples.alice) /\
  get_quote (fst (delete_quote Fixtures.shop Samples.alice Samples.quote_1))
    Samples.alice Samples.quote_1 = json 404 (PError "Quote not found").
Proof.
  assert (H1 : In Fixtures.draft_quote (quotes Fixtures.shop)) by (now left).
  split; [auto|].
  exact (proj1 (proj2 (delete_quote_then_gone Fixtures.shop Samples.alice
                         Samples.quote_1 Fixtures.draft_quote
                         H1 eq_refl eq_refl))).
Defined.

(** X21.  For a well-formed uuid that is the id of no quote of the caller's
    organization, GET, PUT and the finalize route each answer 404 'Quote
    not found', and PUT and finalize leave the store exactly as it was. *)
Theorem quote_of_other_tenant_not_found
    (db : store) (u : claims) (id : string) (b : quote_body) :
  Uuid.is_uuid id = true ->
  (forall q, In q (quotes db) -> q_id q = id -> q_org q <> organizationId u) ->
  get_quote db u id = json 404 (PError "Quote not found") /\
  put_quote db u id b = (db, json 404 (PError "Quote not found")) /\
  finalize_quote db u id = (db, json 404 (PError "Quote not found")).
Proof.
  intros _ H. pose proof (QuotesSpec.not_owned db u id H) as E.
  unfold get_quote, put_quote, finalize_quote. now rewrite E.
Qed.

Lemma quote_of_other_tenant_not_found_witness :
  (Uuid.is_uuid Samples.quote_1 = true /\
   (forall q, In q (quotes Fixtures.shop) -> q_id q = Samples.quote_1 ->
              q_org q <> organizationId Samples.bob)) /\
  In Fixtures.draft_quote (quotes Fixtures.shop) /\
  finalize_quote Fixtures.shop Samples.bob Samples.quote_1 =
    (Fixtures.shop, json 404 (PError "Quote not found")).
Proof.
  assert (H0 : Uuid.is_uuid Samples.quote_1 = true) by reflexivity.
  assert (H : forall q, In q (quotes Fixtures.shop) ->
                q_id q = Samples.quote_1 ->
                q_org q <> organizationId Samples.bob).
  { intros q [<-|[]] _. discriminate. }
  split; [auto|]. split; [now left|].
  exact (proj2 (proj2 (quote_of_other_tenant_not_found Fixtures.shop
                         Samples.bob Samples.quote_1
                         Fixtures.two_lines_body H0 H))).
Defined.

Lemma owned_set_status (id org : string) (q : quote_row) (s : string) :
  owned id org (set_status q s) = owned id org q.
Proof. reflexivity. Qed.

(** X22.  Finalizing twice is finalizing once: the second call leaves the store
    as the first made it and sends the same answer. *)
Theorem finalize_quote_idempotent (db : store) (u : claims) (id : string) :
  finalize_quote (fst (finalize_quote db u id)) u id = finalize_quote db u id.
Proof.
  unfold finalize_quote.
  destruct (filter (owned id (organizationId u)) (quotes db))
    as [|q rest] eqn:E; simpl.
  - now rewrite E.
  - assert (F : forall l,
      filter (owned id (organizationId u))
        (map (fun r => if owned id (organizationId u) r
                       then set_status r "sent" else r) l) =
      map (fun r => set_status r "sent")
          (filter (owned id (organizationId u)) l)).
    { induction l as [|r l IH]; simpl; [reflexivity|].
      destruct (owned id (organizationId u) r) eqn:O; simpl.
      - rewrite owned_set_status, O. simpl. now rewrite IH.
      - now rewrite O, IH. }
    rewrite F, E. simpl. f_equal.
    unfold with_quotes. simpl. f_equal.
    rewrite map_map. apply map_ext. intro r.
    destruct (owned id (organizationId u) r) eqn:O.
    + now rewrite owned_set_status, O.
    + now rewrite O.
Qed.

(** X23.  For two different well-formed uuids, creating, updating,
    finalizing or deleting the quote with the first leaves the lines of the
    quote with the second as they were. *)
Theorem lines_of_other_quotes_unchanged
    (db : store) (u : claims) (id id' : string) (b : quote_body) :
  Uuid.is_uuid id = true -> Uuid.is_uuid id' = true ->
  id' <> id ->
  filter (of_quote id') (quote_items (fst (post_quote db u id b))) =
    filter (of_quote id') (quote_items db) /\
  filter (of_quote id') (quote_items (fst (put_quote db u id b))) =
    filter (of_quote id') (quote_items db) /\
  filter (of_quote id') (quote_items (fst (finalize_quote db u id))) =
    filter (of_quote id') (quote_items db) /\
  filter (of_quote id') (quote_items (fst (delete_quote db u id))) =
    filter (of_quote id') (quote_items db).
Proof.
  intros _ _ N. split; [|split; [|split]].
  - unfold post_quote. simpl.
    rewrite filter_app, (of_other_quote_item_row_of id id' _ N).
    apply app_nil_r.
  - unfold put_quote.
    destruct (filter (owned id (organizationId u)) (quotes db));
      [reflexivity|].
    destruct (items b) as [xs|]; simpl; [|reflexivity].
    rewrite filter_app, (of_other_quote_item_row_of id id' _ N).
    rewrite app_nil_r. now apply of_other_quote_kept.
  - unfold finalize_quote.
    destruct (filter (owned id (organizationId u)) (quotes db)); reflexivity.
  - rewrite QuotesSpec.delete_quote_items. now apply of_other_quote_kept.
Qed.

Lemma lines_of_other_quotes_unchanged_witness :
  (Uuid.is_uuid Samples.quote_1 = true /\
   Uuid.is_uuid Fixtures.quote_2 = true /\
   Fixtures.quote_2 <> Samples.quote_1) /\
  snd (delete_quote Fixtures.two_quotes Samples.alice Samples.quote_1) =
    json 200 PSuccess /\
  List.length (quote_items Fixtures.two_quotes) = 3 /\
  List.length
    (quote_items (fst (delete_quote Fixtures.two_quotes Samples.alice
                         Samples.quote_1))) = 2 /\
  filter (of_quote Fixtures.quote_2)
    (quote_items (fst (delete_quote Fixtures.two_quotes Samples.alice
                         Samples.quote_1))) =
  filter (of_quote Fixtures.quote_2) (quote_items Fixtures.two_quotes) /\
  List.length
    (filter (of_quote Fixtures.quote_2) (quote_items Fixtures.two_quotes))
    = 2.
Proof.
  assert (H1 : Uuid.is_uuid Samples.quote_1 = true) by reflexivity.
  assert (H2 : Uuid.is_uuid Fixtures.quote_2 = true) by reflexivity.
  assert (H3 : Fixtures.quote_2 <> Samples.quote_1) by discriminate.
  split; [auto|]. split; [reflexivity|]. split; [reflexivity|].
  split; [reflexivity|]. split; [|reflexivity].
  exact (proj2 (proj2 (proj2 (lines_of_other_quotes_unchanged
           Fixtures.two_quotes Samples.alice Samples.quote_1
           Fixtures.quote_2 Fixtures.two_lines_body H1 H2 H3)))).
Defined.

End QuotesFacts.

(* ================================================================== *)
(** ** The assistant routes, continued *)

Module AIFacts.
Import AI.

Section Chat.

Variable api_key : bool.
Variable anthropic : list block -> string -> ai_outcome.

(** A message that is no non-empty string is turned down with 400
    'Message is required', whether or not the API key is set and whatever
    the context and the model would have done. *)
Theorem chat_requires_message
    (message : value) (ctx : option context) (req : request) :
  (forall m, message = VStr m -> m = "") ->
  chat api_key anthropic message ctx req =
    json 400 (PError "Message is required").
Proof.
  intro H. unfold chat.
  destruct message as [| | | |m| |]; try reflexivity.
  now rewrite (H m eq_refl).
Qed.

(** X24.  With a message, the key set and a prompt that builds, the answer
    follows the model call: its text with 200; a 401 from upstream as 503
    'AI service authentication failed'; a 429 as 429; any other failure
    as 500. *)
Theorem chat_maps_upstream_errors
    (m : string) (ctx : option context) (req : request)
    (systemPrompt : list block) :
  m <> "" -> api_key = true ->
  buildSystemPrompt ctx = Some systemPrompt ->
  (forall t, anthropic systemPrompt m = AiText t ->
     chat api_key anthropic (VStr m) ctx req = json 200 (PText t)) /\
  (anthropic systemPrompt m = AiError (Some 401) ->
     chat api_key anthropic (VStr m) ctx req =
       json 503 (PError "AI service authentication failed")) /\
  (anthropic systemPrompt m = AiError (Some 429) ->
     chat api_key anthropic (VStr m) ctx req =
       json 429 (PError "AI rate limit exceeded. Please try again later.")) /\
  (forall st, anthropic systemPrompt m = AiError st ->
     st <> Some 401 -> st <> Some 429 ->
     chat api_key anthropic (VStr m) ctx req =
       json 500 (PError "Failed to get AI response")).
Proof.
  intros Hm Hk Hp. unfold chat. simpl.
  apply String.eqb_neq in Hm. rewrite Hm, Hk, Hp. simpl.
  repeat split.
  - intros t E. now rewrite E.
  - intro E. now rewrite E.
  - intro E. now rewrite E.
  - intros st E N1 N2. rewrite E.
    assert (F : forall k, st <> Some k -> status_is st k = false).
    { intros k N. destruct st as [j|]; simpl; [|reflexivity].
      apply Nat.eqb_neq. congruence. }
    now rewrite (F 401 N1), (F 429 N2).
Qed.

End Chat.

Lemma chat_requires_message_witness :
  (forall m, VNum 5%Q = VStr m -> m = "") /\
  chat true Fixtures.answering (VNum 5%Q) None Samples.anonymous =
    json 400 (PError "Message is required").
Proof.
  assert (H : forall m, VNum 5%Q = VStr m -> m = "")
    by (intros m E; discriminate E).
  split; [exact H|].
  exact (chat_requires_message true Fixtures.answering (VNum 5%Q) None
           Samples.anonymous H).
Defined.

Lemma chat_maps_upstream_errors_witness :
  ("Is this quote profitable?" <> "" /\ true = true /\
   buildSystemPrompt None = Some [Preamble]) /\
  chat true (Fixtures.failing (Some 401)) (VStr "Is this quote profitable?")
    None Samples.anonymous =
    json 503 (PError "AI service authentication failed").
Proof.
  assert (H1 : "Is this quote profitable?" <> "") by discriminate.
  assert (H3 : buildSystemPrompt None = Some [Preamble]) by reflexivity.
  split; [auto|].
  exact (proj1 (proj2 (chat_maps_upstream_errors true
           (Fixtures.failing (Some 401)) "Is this quote profitable?" None
           Samples.anonymous [Preamble] H1 eq_refl H3)) eq_refl).
Defined.

(** X25.  For a settings document that [validateSettings] accepts, the prompt
    builder throws exactly when one of the volume tiers is [null]. *)
Theorem prompt_for_validated_settings
    (q : option quote_ctx) (s : value) :
  Settings.validateSettings s = None ->
  (buildSystemPrompt (Some {| quote := q; settings := Some s |}) = None <->
   existsb is_null (Settings.tiers_of s) = true).
Proof.
  intros V. apply SettingsSpec.validateSettings_shape in V.
  unfold Settings.shape_ok in V.
  apply andb_true_iff in V as [V _]. apply andb_true_iff in V as [_ V].
  unfold buildSystemPrompt, settings_blocks, Settings.tiers_of. simpl.
  destruct (prop s "volumeTiers") as [| | | | |ts|]; try discriminate V.
  destruct (existsb is_null ts); split; intro H;
    solve [reflexivity | discriminate H].
Qed.

Lemma prompt_for_validated_settings_witness :
  Settings.validateSettings Fixtures.null_tier_settings = None /\
  buildSystemPrompt
    (Some {| quote := Some Samples.two_line_quote;
             settings := Some Fixtures.null_tier_settings |}) = None.
Proof.
  assert (H2 : Settings.validateSettings Fixtures.null_tier_settings = None)
    by reflexivity.
  split; [exact H2|].
  apply (prompt_for_validated_settings (Some Samples.two_line_quote)
           Fixtures.null_tier_settings H2).
  reflexivity.
Defined.

Local Open Scope Q_scope.

Lemma fraction_all (n : nat) :
  (0 < n)%nat ->
  inject_Z (Z.of_nat n) / inject_Z (Z.of_nat n) == 1.
Proof.
  intro H. apply Qmult_inv_r. intro E.
  assert (Hz : inject_Z (Z.of_nat n) == inject_Z 0%Z) by exact E.
  apply -> inject_Z_injective in Hz. lia.
Qed.

(** X26.  The percentage printed in the prompt is 100 when the [bipoc] flag of
    every line is truthy and 0 when the flag of every line is falsy. *)
Theorem bipocPercent_extremes (xs : list line_item) :
  xs <> [] ->
  ((forall i, In i xs -> truthy (bipoc i) = true) ->
     bipocPercent xs = 100%Z) /\
  ((forall i, In i xs -> truthy (bipoc i) = false) ->
     bipocPercent xs = 0%Z).
Proof.
  intro N.
  assert (L : (0 < List.length xs)%nat)
    by (destruct xs; [congruence|simpl; lia]).
  split; intro H.
  - assert (C : bipocCount xs = List.length xs).
    { unfold bipocCount. clear N L.
      induction xs as [|x xs IH]; [reflexivity|]. simpl.
      rewrite (H x) by now left. simpl. f_equal. apply IH.
      intros i Hi. apply H. now right. }
    unfold bipocPercent, bipocFraction, round. rewrite C.
    assert (E : inject_Z (Z.of_nat (List.length xs)) /
                inject_Z (Z.of_nat (List.length xs)) * 100 + (1 # 2)
                == 100 + (1 # 2)).
    { rewrite (fraction_all _ L). reflexivity. }
    now rewrite (Qfloor_comp _ _ E).
  - assert (C : bipocCount xs = 0%nat).
    { unfold bipocCount. clear N L.
      induction xs as [|x xs IH]; [reflexivity|]. simpl.
      rewrite (H x) by now left. apply IH.
      intros i Hi. apply H. now right. }
    unfold bipocPercent, bipocFraction, round. rewrite C.
    assert (E : inject_Z (Z.of_nat 0) /
                inject_Z (Z.of_nat (List.length xs)) * 100 + (1 # 2)
                == 1 # 2).
    { change (inject_Z (Z.of_nat 0)) with 0. unfold Qdiv.
      rewrite !Qmult_0_l. reflexivity. }
    now rewrite (Qfloor_comp _ _ E).
Qed.

Lemma bipocPercent_extremes_witness :
  [{| product := "Mandarins"; cases := Some 25; lineTotal := Some 900;
      pricePerCase := Some 30.6; marginPercent := Some 20;
      bipoc := VBool true |}] <> [] /\
  bipocPercent
    [{| product := "Mandarins"; cases := Some 25; lineTotal := Some 900;
        pricePerCase := Some 30.6; marginPercent := Some 20;
        bipoc := VBool true |}] = 100%Z.
Proof.
  assert (H : [{| product := "Mandarins"; cases := Some 25;
                  lineTotal := Some 900; pricePerCase := Some 30.6;
                  marginPercent := Some 20; bipoc := VBool true |}] <> [])
    by discriminate.
  split; [exact H|].
  apply (proj1 (bipocPercent_extremes _ H)).
  intros i [<-|[]]. reflexivity.
Defined.

End AIFacts.

(* ================================================================== *)
(** ** Accounts *)

Module AccountsFacts.
Import Accounts.

Section Facts.

Variable pbkdf2Sync : string -> string -> N -> N -> string -> list byte.
Variable jwt_sign : claims -> string.
Variable toLowerCase : string -> string.
Variable jwt_verify : string -> option claims.

Local Abbreviation register :=
  (Accounts.register pbkdf2Sync jwt_sign toLowerCase).
Local Abbreviation login := (Accounts.login pbkdf2Sync jwt_sign toLowerCase).

Lemma missing_some (s : string) : missing (Some s) = false -> s <> "".
Proof. simpl. intro H. now apply String.eqb_neq. Qed.

(** What a registration that answered 201 has checked and written. *)
Lemma register_created (st : state) (rnd : list byte) (orgId uid : string)
    (b : register_body) :
  a_status (snd (register st rnd orgId uid b)) = 201 ->
  exists mail password name,
    r_email b = Some mail /\ r_password b = Some password /\
    r_name b = Some name /\
    mail <> "" /\ password <> "" /\ name <> "" /\
    8 <= String.length password /\
    by_email st (toLowerCase mail) = [] /\
    register st rnd orgId uid b =
      ({| db := with_pricing_settings (db st)
                  (pricing_settings (db st) ++
                   [{| s_org := orgId; s_settings := getDefaultSettings |}]);
          organizations := organizations st ++
            [{| o_id := orgId; o_name := Queries.org_name b name |}];
          users := users st ++
            [{| u_id := uid; u_org := orgId;
                u_email := toLowerCase mail;
                u_password_hash := hashPassword pbkdf2Sync rnd password;
                u_name := name; u_role := "admin" |}] |},
       reply 201
         (ASession uid (toLowerCase mail) name "admin"
            (jwt_sign {| userId := uid; email := toLowerCase mail;
                         organizationId := orgId; role := "admin" |}))).
Proof.
  unfold Accounts.register, Queries.org_name.
  destruct (r_email b) as [mail|]; [|discriminate].
  destruct (r_password b) as [password|]; [|discriminate].
  destruct (r_name b) as [name|]; [|discriminate].
  destruct (missing (Some mail)) eqn:M1; [discriminate|].
  destruct (missing (Some password)) eqn:M2; [discriminate|].
  destruct (missing (Some name)) eqn:M3; [discriminate|].
  simpl orb. cbv iota.
  destruct (Nat.ltb (String.length password) 8) eqn:L; [discriminate|].
  destruct (by_email st (toLowerCase mail)) eqn:E; [|discriminate].
  intros _. exists mail, password, name.
  apply Nat.ltb_ge in L.
  repeat split; try (now apply missing_some); try assumption.
  destruct (r_organizationName b); reflexivity.
Qed.

Lemma verify_own_hash (rnd : list byte) (p : string) :
  verifyPassword pbkdf2Sync p (hashPassword pbkdf2Sync rnd p) = true.
Proof.
  unfold verifyPassword. rewrite PasswordFacts.split_stored. simpl.
  apply String.eqb_refl.
Qed.

Lemma by_email_app (st : state) (us : list user_row) (e : string) :
  filter (fun r => String.eqb (u_email r) e) (users st ++ us) =
  by_email st e ++ filter (fun r => String.eqb (u_email r) e) us.
Proof. unfold by_email. apply filter_app. Qed.

(** X27.  After a registration that answered 201, a login with the same password
    and the same email in any letter case answers 200 with a session of
    the new user: its id, the lower-cased email, the name and the role
    admin, and a token signed for that user and the new organization. *)
Theorem register_then_login
    (st : state) (rnd : list byte) (orgId uid : string)
    (b : register_body) (mail mail' password name : string) :
  a_status (snd (register st rnd orgId uid b)) = 201 ->
  r_email b = Some mail -> r_password b = Some password ->
  r_name b = Some name ->
  mail' <> "" -> toLowerCase mail' = toLowerCase mail ->
  login (fst (register st rnd orgId uid b))
    {| l_email := Some mail'; l_password := Some password |} =
  reply 200
    (ASession uid (toLowerCase mail) name "admin"
       (jwt_sign {| userId := uid; email := toLowerCase mail;
                    organizationId := orgId; role := "admin" |})).
Proof.
  intros H He Hp Hn Hne Hl.
  destruct (register_created st rnd orgId uid b H)
    as (e & p & n & He' & Hp' & Hn' & _ & Hpn & _ & _ & Hfree & R).
  rewrite He in He'. injection He' as <-.
  rewrite Hp in Hp'. injection Hp' as <-.
  rewrite Hn in Hn'. injection Hn' as <-.
  rewrite R. unfold Accounts.login. cbn [fst l_email l_password].
  replace (missing (Some mail')) with false
    by (symmetry; now apply String.eqb_neq).
  replace (missing (Some password)) with false
    by (symmetry; now apply String.eqb_neq).
  cbn [orb]. rewrite Hl. unfold by_email at 1. cbn [users].
  rewrite by_email_app, Hfree. cbn [app filter u_email].
  rewrite String.eqb_refl. cbn [u_password_hash].
  rewrite verify_own_hash. reflexivity.
Qed.

(** X28.  After a registration that answered 201, a second registration with
    the same email in any letter case, and otherwise well-formed, answers
    409 'Email already registered' and writes nothing. *)
Theorem register_twice
    (st : state) (rnd rnd' : list byte) (orgId uid orgId' uid' : string)
    (b b' : register_body) (mail mail' password' name' : string) :
  a_status (snd (register st rnd orgId uid b)) = 201 ->
  r_email b = Some mail ->
  r_email b' = Some mail' -> r_password b' = Some password' ->
  r_name b' = Some name' ->
  mail' <> "" -> name' <> "" -> 8 <= String.length password' ->
  toLowerCase mail' = toLowerCase mail ->
  register (fst (register st rnd orgId uid b)) rnd' orgId' uid' b' =
    (fst (register st rnd orgId uid b),
     reply 409 (AError "Email already registered")).
Proof.
  intros H He He' Hp' Hn' Ne Nn L Hl.
  destruct (register_created st rnd orgId uid b H)
    as (e & p & n & E1 & _ & _ & _ & _ & _ & _ & _ & R).
  rewrite He in E1. injection E1 as <-.
  rewrite R. cbn [fst].
  unfold Accounts.register at 1. rewrite He', Hp', Hn'.
  replace (missing (Some mail')) with false
    by (symmetry; now apply String.eqb_neq).
  replace (missing (Some name')) with false
    by (symmetry; now apply String.eqb_neq).
  assert (Np : password' <> "").
  { intro E. rewrite E in L. simpl in L. lia. }
  replace (missing (Some password')) with false
    by (symmetry; now apply String.eqb_neq).
  cbn [orb].
  replace (Nat.ltb (String.length password') 8) with false
    by (symmetry; now apply Nat.ltb_ge).
  rewrite Hl. unfold by_email. cbn [users].
  rewrite filter_app. cbn [filter u_email]. rewrite String.eqb_refl.
  destruct (filter _ (users st)); reflexivity.
Qed.

(** X29.  After a registration that answered 201 under fresh identifiers, the
    new user's profile shows the lower-cased email, the role admin and the
    organization named after the body (or after the user), and the
    settings route returns to the new organization the document stored at
    registration. *)
Theorem register_then_profile_and_settings
    (st : state) (rnd : list byte) (orgId uid : string)
    (b : register_body) (mail name : string) (c : claims) :
  a_status (snd (register st rnd orgId uid b)) = 201 ->
  r_email b = Some mail -> r_name b = Some name ->
  (forall r, In r (users st) -> u_id r <> uid) ->
  (forall o, In o (organizations st) -> o_id o <> orgId) ->
  (forall r, In r (pricing_settings (db st)) -> s_org r <> orgId) ->
  userId c = uid -> organizationId c = orgId ->
  let st' := fst (register st rnd orgId uid b) in
  me st' c =
    reply 200
      (AProfile uid (toLowerCase mail) name "admin"
         (Queries.org_name b name)) /\
  Settings.get_settings (db st') c = json 200 (PSettings getDefaultSettings).
Proof.
  intros H He Hn Fu Fo Fs Cu Co.
  destruct (register_created st rnd orgId uid b H)
    as (e & p & n & E1 & _ & E3 & _ & _ & _ & _ & _ & R).
  rewrite He in E1. injection E1 as <-.
  rewrite Hn in E3. injection E3 as <-.
  simpl. rewrite R. cbn [fst]. split.
  - unfold me. cbn [users organizations]. rewrite Cu.
    rewrite filter_app, QuotesSpec.filter_none.
    2:{ intros r Hr. apply String.eqb_neq. now apply Fu. }
    cbn [app filter u_id]. rewrite String.eqb_refl. cbn [u_org].
    rewrite filter_app, QuotesSpec.filter_none.
    2:{ intros o Ho. apply String.eqb_neq. now apply Fo. }
    cbn [app filter o_id]. now rewrite String.eqb_refl.
  - unfold Settings.get_settings, Settings.select_settings.
    cbn [db pricing_settings with_pricing_settings]. rewrite Co.
    rewrite filter_app, QuotesSpec.filter_none.
    2:{ intros r Hr. apply String.eqb_neq. now apply Fs. }
    cbn [app filter s_org]. now rewrite String.eqb_refl.
Qed.

(** X30.  The token issued by a registration that answered 201, sent as a bearer
    token, passes [requireAuth] with the new user's id, the new
    organization and the role admin, provided the verifier accepts what
    the signer issued and tokens hold no space. *)
Theorem register_token_authenticates
    (st : state) (rnd : list byte) (orgId uid : string)
    (b : register_body) (mail : string) (req : request) :
  a_status (snd (register st rnd orgId uid b)) = 201 ->
  r_email b = Some mail ->
  let c := {| userId := uid; email := toLowerCase mail;
              organizationId := orgId; role := "admin" |} in
  jwt_verify (jwt_sign c) = Some c ->
  Str.has_char " " (jwt_sign c) = false ->
  authorization req = Some ("Bearer " ++ jwt_sign c)%string ->
  (exists id em name rl,
     a_body (snd (register st rnd orgId uid b)) =
       ASession id em name rl (jwt_sign c)) /\
  requireAuth jwt_verify req = Next (set_user req (Some c)).
Proof.
  intros H He c Hv Hs Ha.
  destruct (register_created st rnd orgId uid b H)
    as (e & p & n & E1 & _ & _ & _ & _ & _ & _ & _ & R).
  rewrite He in E1. injection E1 as <-.
  split.
  - rewrite R. simpl. eauto.
  - unfold requireAuth, verify_header.
    rewrite Ha, startsWith_bearer, (split_bearer _ Hs). simpl.
    fold c. now rewrite Hv.
Qed.

(** Every 401 of the login route carries the same text, for an unknown
    email as for a wrong password. *)
Theorem login_failures_alike (st : state) (b : login_body) :
  a_status (login st b) = 401 ->
  login st b = reply 401 (AError "Invalid email or password").
Proof.
  unfold Accounts.login.
  destruct (l_email b) as [mail|]; [|discriminate].
  destruct (l_password b) as [password|]; [|discriminate].
  destruct (missing (Some mail) || missing (Some password));
    [discriminate|].
  destruct (by_email st (toLowerCase mail)) as [|user rest];
    [reflexivity|].
  destruct (negb (verifyPassword pbkdf2Sync password (u_password_hash user)));
    [reflexivity|discriminate].
Qed.

End Facts.

Local Abbreviation sign_up st b :=
  (register Fixtures.flat_kdf Fixtures.sign_id Fixtures.lower_c st
     Fixtures.salt16 Fixtures.org_9 Fixtures.user_9 b).

Lemma carol_registered :
  a_status (snd (sign_up Fixtures.no_accounts Fixtures.carol_signs_up)) = 201.
Proof. reflexivity. Qed.

Lemma register_then_login_witness :
  (a_status (snd (sign_up Fixtures.no_accounts Fixtures.carol_signs_up))
     = 201 /\
   "carol@farm.example" <> "" /\
   Fixtures.lower_c "carol@farm.example" =
     Fixtures.lower_c "Carol@farm.example") /\
  login Fixtures.flat_kdf Fixtures.sign_id Fixtures.lower_c
    (fst (sign_up Fixtures.no_accounts Fixtures.carol_signs_up))
    {| l_email := Some "carol@farm.example";
       l_password := Some "correct horse" |} =
  reply 200
    (ASession Fixtures.user_9 "carol@farm.example" "Carol" "admin"
       Fixtures.user_9).
Proof.
  assert (H2 : "carol@farm.example" <> "") by discriminate.
  assert (H3 : Fixtures.lower_c "carol@farm.example" =
               Fixtures.lower_c "Carol@farm.example") by reflexivity.
  split; [split; [exact carol_registered|split; assumption]|].
  exact (register_then_login Fixtures.flat_kdf Fixtures.sign_id
           Fixtures.lower_c Fixtures.no_accounts Fixtures.salt16
           Fixtures.org_9 Fixtures.user_9 Fixtures.carol_signs_up
           "Carol@farm.example" "carol@farm.example" "correct horse"
           "Carol" carol_registered eq_refl eq_refl eq_refl H2 H3).
Defined.

Lemma register_twice_witness :
  (a_status (snd (sign_up Fixtures.no_accounts Fixtures.carol_signs_up))
     = 201 /\
   8 <= String.length "correct horse") /\
  a_status
    (snd (sign_up (fst (sign_up Fixtures.no_accounts Fixtures.carol_signs_up))
            Fixtures.carol_signs_up)) = 409.
Proof.
  assert (H1 : "Carol@farm.example" <> "") by discriminate.
  assert (H2 : "Carol" <> "") by discriminate.
  assert (H3 : 8 <= String.length "correct horse") by (simpl; lia).
  split; [split; [exact carol_registered|exact H3]|].
  rewrite (register_twice Fixtures.flat_kdf Fixtures.sign_id
             Fixtures.lower_c Fixtures.no_accounts Fixtures.salt16
             Fixtures.salt16 Fixtures.org_9 Fixtures.user_9 Fixtures.org_9
             Fixtures.user_9 Fixtures.carol_signs_up Fixtures.carol_signs_up
             "Carol@farm.example" "Carol@farm.example" "correct horse"
             "Carol" carol_registered eq_refl eq_refl eq_refl eq_refl
             H1 H2 H3 eq_refl).
  reflexivity.
Defined.

Lemma register_then_profile_and_settings_witness :
  (a_status (snd (sign_up Fixtures.no_accounts Fixtures.carol_signs_up))
     = 201 /\
   (forall r, In r (users Fixtures.no_accounts) -> u_id r <> Fixtures.user_9)
   /\
   userId Fixtures.carol = Fixtures.user_9 /\
   organizationId Fixtures.carol = Fixtures.org_9) /\
  me (fst (sign_up Fixtures.no_accounts Fixtures.carol_signs_up))
     Fixtures.carol =
  reply 200
    (AProfile Fixtures.user_9 "carol@farm.example" "Carol" "admin"
       "Carol's Organization").
Proof.
  assert (F1 : forall r, In r (users Fixtures.no_accounts) ->
                         u_id r <> Fixtures.user_9) by (intros r []).
  assert (F2 : forall o, In o (organizations Fixtures.no_accounts) ->
                         o_id o <> Fixtures.org_9) by (intros o []).
  assert (F3 : forall r, In r (pricing_settings (db Fixtures.no_accounts)) ->
                         s_org r <> Fixtures.org_9) by (intros r []).
  split; [split; [exact carol_registered|auto]|].
  exact (proj1 (register_then_profile_and_settings Fixtures.flat_kdf
           Fixtures.sign_id Fixtures.lower_c Fixtures.no_accounts
           Fixtures.salt16 Fixtures.org_9 Fixtures.user_9
           Fixtures.carol_signs_up "Carol@farm.example" "Carol"
           Fixtures.carol carol_registered eq_refl eq_refl F1 F2 F3
           eq_refl eq_refl)).
Defined.

Lemma register_token_authenticates_witness :
  (a_status (snd (sign_up Fixtures.no_accounts Fixtures.carol_signs_up))
     = 201 /\
   Fixtures.verify_carol (Fixtures.sign_id Fixtures.carol) =
     Some Fixtures.carol /\
   Str.has_char " " (Fixtures.sign_id Fixtures.carol) = false) /\
  requireAuth Fixtures.verify_carol
    {| authorization := Some ("Bearer " ++ Fixtures.user_9)%string;
       user := None |} =
  Next {| authorization := Some ("Bearer " ++ Fixtures.user_9)%string;
          user := Some Fixtures.carol |}.
Proof.
  assert (H1 : Fixtures.verify_carol (Fixtures.sign_id Fixtures.carol) =
               Some Fixtures.carol) by reflexivity.
  assert (H2 : Str.has_char " " (Fixtures.sign_id Fixtures.carol) = false)
    by reflexivity.
  split; [split; [exact carol_registered|split; assumption]|].
  exact (proj2 (register_token_authenticates Fixtures.flat_kdf
           Fixtures.sign_id Fixtures.lower_c Fixtures.verify_carol
           Fixtures.no_accounts Fixtures.salt16 Fixtures.org_9
           Fixtures.user_9 Fixtures.carol_signs_up "Carol@farm.example"
           {| authorization := Some ("Bearer " ++ Fixtures.user_9)%string;
              user := None |}
           carol_registered eq_refl H1 H2 eq_refl)).
Defined.

Lemma login_failures_alike_witness :
  a_status (login Fixtures.flat_kdf Fixtures.sign_id Fixtures.lower_c
              Fixtures.no_accounts
              {| l_email := Some "nobody@farm.example";
                 l_password := Some "correct horse" |}) = 401 /\
  login Fixtures.flat_kdf Fixtures.sign_id Fixtures.lower_c
    Fixtures.no_accounts
    {| l_email := Some "nobody@farm.example";
       l_password := Some "correct horse" |} =
  reply 401 (AError "Invalid email or password").
Proof.
  assert (H : a_status (login Fixtures.flat_kdf Fixtures.sign_id
                Fixtures.lower_c Fixtures.no_accounts
                {| l_email := Some "nobody@farm.example";
                   l_password := Some "correct horse" |}) = 401)
    by reflexivity.
  split; [exact H|].
  exact (login_failures_alike Fixtures.flat_kdf Fixtures.sign_id
           Fixtures.lower_c Fixtures.no_accounts _ H).
Defined.

End AccountsFacts.
